(** * Issuer registry: a shallow embedding of the PyTeal contracts

    The repository ships the same credential-issuer registry several times.
    Two of the variants carry real logic and are embedded here:

    - [IssuerRegistry]       -- [app/contracts/issuer-registry.py]
      (hand-written PyTeal router and subroutines);
    - [IssuerRegistryBeaker] -- [app/contracts/issuer-registry-beaker.py]
      (Beaker application; [algokit-project/.../contract.py] is the same
      code wrapped in a class).

    The two [issuer_registry/contract*.py] files are scaffolds whose
    methods only build a message string; they keep no records and are not
    embedded.

    The AVM primitives used by the contracts ([Itob], [Btoi], [Extract],
    [Substring], box and global storage) are modelled first, then each
    contract is transcribed subroutine by subroutine, and the properties of
    the registry are proved at the end of the file. *)

From Stdlib Require Import Ascii String NArith Lia.
From stdpp Require Import gmap strings list fin_maps.

Local Open Scope N_scope.

(** ** Byte strings and TEAL values *)

(** A TEAL byte string is a sequence of 8-bit characters. *)
Abbreviation bytes := (list ascii).

(** [Bytes("...")] : a byte-string literal. *)
Definition Bytes (s : string) : bytes := list_ascii_of_string s.

(** A stack or global-state value is either a [uint64] or a byte string. *)
Inductive TealValue : Type :=
| Uint (n : N)
| Bstr (b : bytes).

(** ** Failures

    On chain every failure is the same event: the call is rejected and none
    of its writes survive.  To tell the failing checks apart, each [Assert]
    of the source is tagged with the name of the condition it guards; a
    failing opcode (index or range error, overflow, type mismatch) is a
    [Panic], and an explicit [Reject()] is [Rejected]. *)

Inductive Rule : Type := NameLength | UrlShape.

Inductive Error : Type :=
| Unauthorized
| NotFound
| AlreadyExists
| ValidationFailed (r : Rule)
| Rejected
| Panic.

Inductive Result (A : Type) : Type :=
| Ok (a : A)
| Err (e : Error).
Arguments Ok {A} a.
Arguments Err {A} e.

Definition bind {A B : Type} (m : Result A) (k : A -> Result B) : Result B :=
  match m with
  | Ok a => k a
  | Err e => Err e
  end.

Notation "'let*' x ':=' m 'in' k" := (bind m (fun x => k))
  (at level 10, x name, m at level 100, k at level 200).

(** [Assert(c)], tagged with the failure reported when [c] is false. *)
Definition Assert (c : bool) (e : Error) : Result unit :=
  if c then Ok tt else Err e.

(** ** AVM opcodes on integers and byte strings *)

Definition uint64_max : N := 2 ^ 64.

(** [w] bytes of [n], most significant first. *)
Fixpoint be_bytes (w : nat) (n : N) : bytes :=
  match w with
  | O => []
  | S w' => ascii_of_N ((n / 256 ^ N.of_nat w') mod 256) :: be_bytes w' n
  end.

(** Value of a big-endian byte string, continuing from [acc]. *)
Fixpoint be_value (acc : N) (b : bytes) : N :=
  match b with
  | [] => acc
  | c :: b' => be_value (acc * 256 + N_of_ascii c) b'
  end.

(** [Itob]: a [uint64] as 8 big-endian bytes. *)
Definition Itob (n : N) : bytes := be_bytes 8 n.

(** [Btoi]: big-endian bytes to [uint64]; fails on more than 8 bytes. *)
Definition Btoi (b : bytes) : Result N :=
  if (length b <=? 8)%nat then Ok (be_value 0 b) else Err Panic.

(** [Len]. *)
Definition Len (b : bytes) : N := N.of_nat (length b).

(** [Concat]. *)
Definition Concat (bs : list bytes) : bytes := concat bs.

(** [Extract(b, s, l)]: [l] bytes from offset [s]; fails when the range
    leaves the string. *)
Definition Extract (b : bytes) (s l : nat) : Result bytes :=
  if (s + l <=? length b)%nat then Ok (take l (drop s b)) else Err Panic.

(** [Substring(b, s, e)]: bytes [s] up to (not including) [e]; fails when
    [e < s] or [e] is beyond the end. *)
Definition Substring (b : bytes) (s e : nat) : Result bytes :=
  if ((s <=? e)%nat && (e <=? length b)%nat)%bool
  then Ok (take (e - s) (drop s b)) else Err Panic.

(** [+] on [uint64]: fails on overflow. *)
Definition Add (a b : N) : Result N :=
  if a + b <? uint64_max then Ok (a + b) else Err Panic.

(** ** Transaction context *)

Inductive OnComplete : Type :=
| NoOp | OptIn | CloseOut | ClearState | UpdateApplication | DeleteApplication.

(** The fields of [Txn] and [Global] the contracts read. *)
Record Ctx : Type := {
  Txn_sender : bytes;
  Txn_application_id : N;
  Txn_on_completion : OnComplete;
  Txn_application_args : list bytes;
  Global_latest_timestamp : N
}.

(** [Txn.application_args[i]]: fails when the index is out of range. *)
Definition application_arg (ctx : Ctx) (i : nat) : Result bytes :=
  match Txn_application_args ctx !! i with
  | Some a => Ok a
  | None => Err Panic
  end.

(** ** Application state: global key-value state and box storage

    The limits on box names and on logged bytes are modelled with the
    opcodes below; the host's other resource rules (box references and
    funding, the size of the arguments, the opcode budget) are outside the
    model. *)

Record State : Type := {
  globals : gmap bytes TealValue;
  boxes : gmap bytes bytes
}.

Definition empty_state : State := {| globals := ∅; boxes := ∅ |}.

(** [App.globalGet(k)]: the stored value, or integer 0 when [k] is unset. *)
Definition App_globalGet (k : bytes) (st : State) : TealValue :=
  default (Uint 0) (globals st !! k).

(** [App.globalPut(k, v)]. *)
Definition App_globalPut (k : bytes) (v : TealValue) (st : State) : State :=
  {| globals := <[k := v]> (globals st); boxes := boxes st |}.

(** [App.box_get(k)]: [Some v] when the box exists ([hasValue()]). *)
Definition App_box_get (k : bytes) (st : State) : option bytes :=
  boxes st !! k.

(** [hasValue()] of a [box_get] result. *)
Definition hasValue (v : option bytes) : bool :=
  match v with Some _ => true | None => false end.

(** The state with box [k] holding [v]. *)
Definition store_box (k v : bytes) (st : State) : State :=
  {| globals := globals st; boxes := <[k := v]> (boxes st) |}.

(** A box name has 1 to 64 bytes. *)
Definition valid_box_name (k : bytes) : bool :=
  ((1 <=? length k)%nat && (length k <=? 64)%nat)%bool.

(** [App.box_put(k, v)]: creates the box, or replaces its whole contents;
    fails when the box exists with another size, and when there is no box
    and [k] is not a box name.  (A box that exists was created under a box
    name, so the name is checked where a box is created.) *)
Definition App_box_put (k v : bytes) (st : State) : Result State :=
  match boxes st !! k with
  | Some old =>
      if decide (length old = length v) then Ok (store_box k v st)
      else Err Panic
  | None =>
      if valid_box_name k then Ok (store_box k v st) else Err Panic
  end.

(** [Log(v)] fails when more than 1024 bytes are logged by the call; the
    handlers log at most once. *)
Definition max_log_size : nat := 1024.

Definition Log (v : bytes) : Result (list bytes) :=
  if (length v <=? max_log_size)%nat then Ok [v] else Err Panic.

(** A value used where a [uint64] is required. *)
Definition as_uint (v : TealValue) : Result N :=
  match v with Uint n => Ok n | Bstr _ => Err Panic end.

(** A value used where a byte string is required. *)
Definition as_bytes (v : TealValue) : Result bytes :=
  match v with Bstr b => Ok b | Uint _ => Err Panic end.

(** The outcome of one application call: the new state and the logged or
    returned byte strings, or the failure. *)
Abbreviation Outcome := (Result (State * list bytes)).

(** The state after a call: a failed call leaves no trace. *)
Definition commit (st : State) (o : Outcome) : State :=
  match o with
  | Ok (st', _) => st'
  | Err _ => st
  end.

(** ** [app/contracts/issuer-registry.py] *)

Module IssuerRegistry.

(** [is_admin = Txn.sender() == App.globalGet(Bytes("admin"))].  Comparing a
    byte string with an integer (an unset global) is a type error. *)
Definition is_admin (ctx : Ctx) (st : State) : Result bool :=
  let* a := as_bytes (App_globalGet (Bytes "admin") st) in
  Ok (bool_decide (Txn_sender ctx = a)).

Definition on_create (ctx : Ctx) (st : State) : Outcome :=
  let st1 := App_globalPut (Bytes "admin") (Bstr (Txn_sender ctx)) st in
  let st2 := App_globalPut (Bytes "issuer_count") (Uint 0) st1 in
  Ok (st2, []).

(** Check if [address] is an active issuer: its box exists and the
    [revoked_at] field (bytes 8..16) is zero. *)
Definition is_active_issuer (address : bytes) (st : State) : Result bool :=
  match App_box_get address st with
  | Some issuer_data =>
      let* r := Extract issuer_data 8 8 in
      let* n := Btoi r in
      Ok (n =? 0)
  | None => Ok false
  end.

(** Name must be between 3 and 64 characters. *)
Definition validate_name (ctx : Ctx) : Result bool :=
  let* name := application_arg ctx 2 in
  let name_length := Len name in
  Ok ((3 <=? name_length) && (name_length <=? 64)).

(** URL starts with [http://] or [https://] and has 10 to 256 bytes.  [Or]
    and [And] evaluate all their operands, so both [Substring]s run. *)
Definition validate_url (ctx : Ctx) : Result bool :=
  let* url := application_arg ctx 4 in
  let* p7 := Substring url 0 7 in
  let* p8 := Substring url 0 8 in
  let url_starts_http :=
    bool_decide (p7 = Bytes "http://") || bool_decide (p8 = Bytes "https://") in
  let url_length_valid := (10 <=? Len url) && (Len url <=? 256) in
  Ok (url_starts_http && url_length_valid).

(** Box value of an issuer:
    [authorized_at (8), revoked_at (8), revoke_all_flag (8), vouched_by (32)]. *)
Definition issuer_box_value (authorized_at revoked_at flag vouched_by : bytes)
  : bytes :=
  Concat [authorized_at; revoked_at; flag; vouched_by].

(** Metadata value:
    [updated_at (8), name, full_name, url, org_type, jurisdiction]. *)
Definition meta_box_value (ctx : Ctx) : Result bytes :=
  let* name := application_arg ctx 2 in
  let* full_name := application_arg ctx 3 in
  let* url := application_arg ctx 4 in
  let* organization_type := application_arg ctx 5 in
  let* jurisdiction := application_arg ctx 6 in
  Ok (Concat [Itob (Global_latest_timestamp ctx); name; full_name; url;
              organization_type; jurisdiction]).

(** Add authorized issuer (requires vouching from the admin or an active
    issuer). *)
Definition add_issuer (ctx : Ctx) (st : State) : Outcome :=
  let current_time := Global_latest_timestamp ctx in
  let* name_ok := validate_name ctx in
  let* _ := Assert name_ok (ValidationFailed NameLength) in
  let* url_ok := validate_url ctx in
  let* _ := Assert url_ok (ValidationFailed UrlShape) in
  let* adm := is_admin ctx st in
  let* act := is_active_issuer (Txn_sender ctx) st in
  let* _ := Assert (adm || act) Unauthorized in
  let* issuer_address := application_arg ctx 1 in
  let existing := App_box_get issuer_address st in
  let* _ := Assert (negb (hasValue existing)) AlreadyExists in
  let box_value :=
    issuer_box_value (Itob current_time) (Itob 0) (Itob 0) (Txn_sender ctx) in
  let* st1 := App_box_put issuer_address box_value st in
  let* meta := meta_box_value ctx in
  let* st2 := App_box_put (Concat [Bytes "meta:"; issuer_address]) meta st1 in
  let* count := as_uint (App_globalGet (Bytes "issuer_count") st2) in
  let* count' := Add count 1 in
  Ok (App_globalPut (Bytes "issuer_count") (Uint count') st2, []).

(** Revoke issuer: keeps [authorized_at] and [vouched_by], stamps
    [revoked_at] and stores the flag given as third argument. *)
Definition revoke_issuer (ctx : Ctx) (st : State) : Outcome :=
  let current_time := Global_latest_timestamp ctx in
  let* adm := is_admin ctx st in
  let* _ := Assert adm Unauthorized in
  let* issuer_address := application_arg ctx 1 in
  let existing_value := App_box_get issuer_address st in
  let* _ := Assert (hasValue existing_value) NotFound in
  let* authorized_at := Extract (default [] existing_value) 0 8 in
  let* flag_arg := application_arg ctx 2 in
  let* revoke_all_prior := Btoi flag_arg in
  let* vouched_by := Extract (default [] existing_value) 24 32 in
  let* st1 :=
    App_box_put issuer_address
      (issuer_box_value authorized_at (Itob current_time)
         (Itob revoke_all_prior) vouched_by) st in
  Ok (st1, []).

(** Reinstate issuer: new [authorized_at] is now, [revoked_at] and the flag
    are cleared, [vouched_by] is kept. *)
Definition reinstate_issuer (ctx : Ctx) (st : State) : Outcome :=
  let current_time := Global_latest_timestamp ctx in
  let* adm := is_admin ctx st in
  let* _ := Assert adm Unauthorized in
  let* issuer_address := application_arg ctx 1 in
  let existing_value := App_box_get issuer_address st in
  let* _ := Assert (hasValue existing_value) NotFound in
  let* vouched_by := Extract (default [] existing_value) 24 32 in
  let* st1 :=
    App_box_put issuer_address
      (issuer_box_value (Itob current_time) (Itob 0) (Itob 0) vouched_by) st in
  Ok (st1, []).

(** Revoke specific credential: box ["cred:" + credential_id] holds
    [revoked_at (8 bytes), issuer_address]. *)
Definition revoke_credential (ctx : Ctx) (st : State) : Outcome :=
  let current_time := Global_latest_timestamp ctx in
  let* adm := is_admin ctx st in
  let* _ := Assert adm Unauthorized in
  let* credential_id := application_arg ctx 1 in
  let box_key := Concat [Bytes "cred:"; credential_id] in
  let* issuer_address := application_arg ctx 2 in
  let box_value := Concat [Itob current_time; issuer_address] in
  let* st1 := App_box_put box_key box_value st in
  Ok (st1, []).

(** The three queries share one shape: log the box when it exists,
    [Reject()] otherwise. *)
Definition log_box (box_key : bytes) (st : State) : Outcome :=
  match App_box_get box_key st with
  | Some value =>
      let* logged := Log value in
      Ok (st, logged)
  | None => Err Rejected
  end.

Definition query_issuer (ctx : Ctx) (st : State) : Outcome :=
  let* issuer_address := application_arg ctx 1 in
  log_box issuer_address st.

Definition query_credential (ctx : Ctx) (st : State) : Outcome :=
  let* credential_id := application_arg ctx 1 in
  log_box (Concat [Bytes "cred:"; credential_id]) st.

Definition query_metadata (ctx : Ctx) (st : State) : Outcome :=
  let* issuer_address := application_arg ctx 1 in
  log_box (Concat [Bytes "meta:"; issuer_address]) st.

(** Update issuer metadata (admin only). *)
Definition update_metadata (ctx : Ctx) (st : State) : Outcome :=
  let* adm := is_admin ctx st in
  let* _ := Assert adm Unauthorized in
  let* name_ok := validate_name ctx in
  let* _ := Assert name_ok (ValidationFailed NameLength) in
  let* url_ok := validate_url ctx in
  let* _ := Assert url_ok (ValidationFailed UrlShape) in
  let* issuer_address := application_arg ctx 1 in
  let existing := App_box_get issuer_address st in
  let* _ := Assert (hasValue existing) NotFound in
  let* meta := meta_box_value ctx in
  let* st1 := App_box_put (Concat [Bytes "meta:"; issuer_address]) meta st in
  Ok (st1, []).

(** [If(is_admin, Approve(), Reject())]. *)
Definition admin_only (ctx : Ctx) (st : State) : Outcome :=
  let* adm := is_admin ctx st in
  if adm then Ok (st, []) else Err Rejected.

Definition handle_delete := admin_only.
Definition handle_update := admin_only.
Definition handle_optin (ctx : Ctx) (st : State) : Outcome := Ok (st, []).
Definition handle_closeout (ctx : Ctx) (st : State) : Outcome := Ok (st, []).

(** The method table of the router, in the order of the [Cond]. *)
Definition methods : list (string * (Ctx -> State -> Outcome)) :=
  [ ("add_issuer"%string, add_issuer);
    ("revoke_issuer"%string, revoke_issuer);
    ("reinstate_issuer"%string, reinstate_issuer);
    ("revoke_credential"%string, revoke_credential);
    ("update_metadata"%string, update_metadata);
    ("query_issuer"%string, query_issuer);
    ("query_credential"%string, query_credential);
    ("query_metadata"%string, query_metadata) ].

(** The [Cond] arms on [Txn.application_args[0]]: the first arm whose name
    matches runs; when none matches the [Cond] fails. *)
Fixpoint dispatch (selector : bytes)
    (table : list (string * (Ctx -> State -> Outcome)))
    (ctx : Ctx) (st : State) : Outcome :=
  match table with
  | [] => Err Panic
  | (name, handler) :: rest =>
      if bool_decide (selector = Bytes name) then handler ctx st
      else dispatch selector rest ctx st
  end.

(** Router for application calls. *)
Definition program (ctx : Ctx) (st : State) : Outcome :=
  if Txn_application_id ctx =? 0 then on_create ctx st
  else
    match Txn_on_completion ctx with
    | DeleteApplication => handle_delete ctx st
    | UpdateApplication => handle_update ctx st
    | OptIn => handle_optin ctx st
    | CloseOut => handle_closeout ctx st
    | NoOp | ClearState =>
        let* selector := application_arg ctx 0 in
        dispatch selector methods ctx st
    end.

End IssuerRegistry.

(** ** [app/contracts/issuer-registry-beaker.py]

    The Beaker methods take their arguments already decoded
    ([abi.Address.get()], [abi.String.get()]).  Every method stores its
    result in [output] and then runs [Approve()], which ends the program
    on the spot: the call is approved before the stored value is logged,
    so no method logs anything.  In [revoke_issuer] and [reinstate_issuer]
    the step [(existing_data := issuer_box.value())] is read as the
    binding it is meant to be; PyTeal's [Seq] refuses a value in that
    position, so as written the two methods do not build, and nothing
    proved below needs them to succeed. *)

Module IssuerRegistryBeaker.

(** [is_admin = Txn.sender() == app.state.admin.get()]. *)
Definition is_admin (ctx : Ctx) (st : State) : Result bool :=
  let* a := as_bytes (App_globalGet (Bytes "admin") st) in
  Ok (bool_decide (Txn_sender ctx = a)).

(** Add a new authorized issuer to the registry.  For now, only admin can
    add issuers. *)
Definition add_issuer (ctx : Ctx)
    (issuer_address name full_name website_url organization_type
     jurisdiction : bytes) (st : State) : Outcome :=
  let current_time := Global_latest_timestamp ctx in
  let* adm := is_admin ctx st in
  let* _ := Assert adm Unauthorized in
  let* st1 :=
    App_box_put issuer_address
      (Concat [Itob current_time; Itob 0; Itob 0; Txn_sender ctx]) st in
  let* st2 :=
    App_box_put (Concat [Bytes "meta:"; issuer_address])
      (Concat [Itob current_time; name; full_name; website_url;
               organization_type; jurisdiction]) st1 in
  let* count := as_uint (App_globalGet (Bytes "issuer_count") st2) in
  let* count' := Add count 1 in
  let output := Itob 1 in
  Ok (App_globalPut (Bytes "issuer_count") (Uint count') st2, []).

(** Revoke authorization for an issuer (admin only): only [revoked_at] is
    rewritten. *)
Definition revoke_issuer (ctx : Ctx) (issuer_address : bytes) (st : State)
  : Outcome :=
  let current_time := Global_latest_timestamp ctx in
  let* adm := is_admin ctx st in
  let* _ := Assert adm Unauthorized in
  let issuer_box := App_box_get issuer_address st in
  let* _ := Assert (hasValue issuer_box) NotFound in
  let existing_data := default [] issuer_box in
  let* authorized_at := Extract existing_data 0 8 in
  let* revoke_all_prior := Extract existing_data 16 8 in
  let* vouched_by := Extract existing_data 24 32 in
  let* st1 :=
    App_box_put issuer_address
      (Concat [authorized_at; Itob current_time; revoke_all_prior;
               vouched_by]) st in
  let output := Itob 1 in
  Ok (st1, []).

(** Reinstate a previously revoked issuer (admin only): only [revoked_at]
    is cleared. *)
Definition reinstate_issuer (ctx : Ctx) (issuer_address : bytes) (st : State)
  : Outcome :=
  let* adm := is_admin ctx st in
  let* _ := Assert adm Unauthorized in
  let issuer_box := App_box_get issuer_address st in
  let* _ := Assert (hasValue issuer_box) NotFound in
  let existing_data := default [] issuer_box in
  let* authorized_at := Extract existing_data 0 8 in
  let* revoke_all_prior := Extract existing_data 16 8 in
  let* vouched_by := Extract existing_data 24 32 in
  let* st1 :=
    App_box_put issuer_address
      (Concat [authorized_at; Itob 0; revoke_all_prior; vouched_by]) st in
  let output := Itob 1 in
  Ok (st1, []).

(** Revoke a specific credential (admin only). *)
Definition revoke_credential (ctx : Ctx) (credential_id issuer_address : bytes)
    (st : State) : Outcome :=
  let current_time := Global_latest_timestamp ctx in
  let* adm := is_admin ctx st in
  let* _ := Assert adm Unauthorized in
  let* st1 :=
    App_box_put (Concat [Bytes "cred:"; credential_id])
      (Concat [Itob current_time; issuer_address]) st in
  let output := Itob 1 in
  Ok (st1, []).

(** The three queries share one shape: [output] is set to the box
    contents, or to the empty byte string if not found, and the call is
    approved either way. *)
Definition read_box (box_key : bytes) (st : State) : Outcome :=
  let output :=
    match App_box_get box_key st with
    | Some value => value
    | None => Bytes ""
    end in
  Ok (st, []).

Definition query_issuer (ctx : Ctx) (issuer_address : bytes) (st : State)
  : Outcome :=
  read_box issuer_address st.

Definition query_credential (ctx : Ctx) (credential_id : bytes) (st : State)
  : Outcome :=
  read_box (Concat [Bytes "cred:"; credential_id]) st.

Definition query_metadata (ctx : Ctx) (issuer_address : bytes) (st : State)
  : Outcome :=
  read_box (Concat [Bytes "meta:"; issuer_address]) st.

(** Update issuer metadata (admin only). *)
Definition update_metadata (ctx : Ctx)
    (issuer_address name full_name website_url organization_type
     jurisdiction : bytes) (st : State) : Outcome :=
  let current_time := Global_latest_timestamp ctx in
  let* adm := is_admin ctx st in
  let* _ := Assert adm Unauthorized in
  let* st1 :=
    App_box_put (Concat [Bytes "meta:"; issuer_address])
      (Concat [Itob current_time; name; full_name; website_url;
               organization_type; jurisdiction]) st in
  let output := Itob 1 in
  Ok (st1, []).

End IssuerRegistryBeaker.

(** ** Reading the fields of an issuer box

    The accessors use the offsets the contracts use:
    [Extract(v, 0, 8)], [Extract(v, 8, 8)], [Extract(v, 16, 8)] and
    [Extract(v, 24, 32)]. *)

Definition authorized_at (v : bytes) : Result N :=
  let* f := Extract v 0 8 in Btoi f.

Definition revoked_at (v : bytes) : Result N :=
  let* f := Extract v 8 8 in Btoi f.

Definition revoke_all_prior (v : bytes) : Result N :=
  let* f := Extract v 16 8 in Btoi f.

Definition vouched_by (v : bytes) : Result bytes :=
  Extract v 24 32.

(** The [issuer_count] global as a number. *)
Definition issuer_count (st : State) : Result N :=
  as_uint (App_globalGet (Bytes "issuer_count") st).

(** The [admin] global. *)
Definition admin (st : State) : Result bytes :=
  as_bytes (App_globalGet (Bytes "admin") st).


(** The Validation Rules, in the words of the specification. *)

Definition name_rule (name : bytes) : Prop :=
  (3 <= length name <= 64)%nat.

Definition url_rule (url : bytes) : Prop :=
  (take 7 url = Bytes "http://" \/ take 8 url = Bytes "https://")
  /\ (10 <= length url <= 256)%nat.

#[global] Instance name_rule_dec name : Decision (name_rule name).
Proof. unfold name_rule. apply _. Defined.

#[global] Instance url_rule_dec url : Decision (url_rule url).
Proof. unfold url_rule. apply _. Defined.


(** The two metadata checks as [add_issuer] runs them first, and
    [update_metadata] right after its admin check: [validate_name], then
    [validate_url], each under its [Assert]. *)
Definition validation_checks (ctx : Ctx) : Result unit :=
  let* name_ok := IssuerRegistry.validate_name ctx in
  let* _ := Assert name_ok (ValidationFailed NameLength) in
  let* url_ok := IssuerRegistry.validate_url ctx in
  Assert url_ok (ValidationFailed UrlShape).

(** ** Callers, histories and record identity *)

(** "Active issuer", in the words of the specification: an issuer box
    exists for the address and its [revoked_at] is 0. *)
Definition active_issuer (address : bytes) (st : State) : Prop :=
  exists v, App_box_get address st = Some v /\ revoked_at v = Ok 0.

(** The caller is the admin or an active issuer.  Both operands of the
    contract's [Or] are evaluated, so for the admin the caller's own box, if
    there is one, must be long enough to hold a [revoked_at] field. *)
Definition caller_authorized (ctx : Ctx) (st : State) : Prop :=
  exists a, admin st = Ok a /\
    ((Txn_sender ctx = a /\
      forall v, App_box_get (Txn_sender ctx) st = Some v -> (16 <= length v)%nat)
     \/ active_issuer (Txn_sender ctx) st).

(** A sequence of calls, each applied to the state the previous one left. *)
Definition run_calls (st : State) (calls : list Ctx) : State :=
  foldl (fun s c => commit s (IssuerRegistry.program c s)) st calls.

(** The registry as created by [creation] and then driven by [calls]. *)
Definition registry_after (creation : Ctx) (calls : list Ctx) : State :=
  run_calls (commit empty_state (IssuerRegistry.program creation empty_state))
    calls.

(** Host timestamps never go back: each call's timestamp is at least [t]
    and at least its predecessor's. *)
Fixpoint nondecreasing_from (t : N) (calls : list Ctx) : Prop :=
  match calls with
  | [] => True
  | c :: rest =>
      t <= Global_latest_timestamp c
      /\ nondecreasing_from (Global_latest_timestamp c) rest
  end.

(** A call to the created application carrying a [uint64] timestamp. *)
Definition app_call (c : Ctx) : Prop :=
  Txn_application_id c <> 0 /\ Global_latest_timestamp c < uint64_max.

(** A history: one creation call, then calls to the application, with
    non-decreasing timestamps. *)
Definition history (creation : Ctx) (calls : list Ctx) : Prop :=
  Txn_application_id creation = 0
  /\ Forall app_call calls
  /\ nondecreasing_from (Global_latest_timestamp creation) calls.

(** All three record kinds live in one box namespace.  A key is an issuer
    key proper when it carries neither of the two prefixes under which
    metadata and credential records are stored. *)
Definition plain_key (k : bytes) : Prop :=
  ~ (Bytes "meta:" `prefix_of` k) /\ ~ (Bytes "cred:" `prefix_of` k).

(** Every issuer record stored in [st] has readable timestamps that satisfy
    [revoked_at = 0] or [R revoked_at authorized_at]. *)
Definition issuer_records_satisfy (R : N -> N -> Prop) (st : State) : Prop :=
  forall k v, plain_key k -> App_box_get k st = Some v ->
    exists a r, authorized_at v = Ok a /\ revoked_at v = Ok r
                /\ (r = 0 \/ R r a).

(** The bookkeeping behind [issuer_records_satisfy]: in addition no
    issuer record was authorized after time [t]. *)
Definition issuer_records_bounded (t : N) (st : State) : Prop :=
  forall k v, plain_key k -> App_box_get k st = Some v ->
    exists a r, authorized_at v = Ok a /\ revoked_at v = Ok r
                /\ a <= t /\ (r = 0 \/ a <= r).

(** What one call to the application can do to the state: nothing (a
    failed call, a query, an opt-in ...), or the writes of one of the five
    mutating handlers. *)
Inductive effect (c : Ctx) (st : State) : State -> Prop :=
| effect_none :
    effect c st st
| effect_add (address meta : bytes) (n : N) :
    App_box_get address st = None ->
    issuer_count st = Ok n ->
    n + 1 < uint64_max ->
    effect c st
      (App_globalPut (Bytes "issuer_count") (Uint (n + 1))
         (store_box (Concat [Bytes "meta:"; address]) meta
            (store_box address
               (IssuerRegistry.issuer_box_value
                  (Itob (Global_latest_timestamp c)) (Itob 0) (Itob 0)
                  (Txn_sender c)) st)))
| effect_revoke (address old a vb : bytes) (flag : N) :
    App_box_get address st = Some old ->
    Extract old 0 8 = Ok a ->
    Extract old 24 32 = Ok vb ->
    effect c st
      (store_box address
         (IssuerRegistry.issuer_box_value a
            (Itob (Global_latest_timestamp c)) (Itob flag) vb) st)
| effect_reinstate (address old vb : bytes) :
    App_box_get address st = Some old ->
    Extract old 24 32 = Ok vb ->
    effect c st
      (store_box address
         (IssuerRegistry.issuer_box_value
            (Itob (Global_latest_timestamp c)) (Itob 0) (Itob 0) vb) st)
| effect_credential (credential_id value : bytes) :
    effect c st (store_box (Concat [Bytes "cred:"; credential_id]) value st)
| effect_metadata (address value : bytes) :
    effect c st (store_box (Concat [Bytes "meta:"; address]) value st).

(** The call fails with [e] and the state it leaves is the state it
    found. *)
Definition fails_unchanged (e : Error) (st : State) (o : Outcome) : Prop :=
  o = Err e /\ commit st o = st.

(** ** Sample calls

    Concrete addresses, calls and states on which the theorems below are
    exercised.  The metadata is that of the scenario in the specification. *)

Module Sample.

Definition admin_address : bytes := Bytes "AAAAAAAAAAAAAAAAAAAAAAAAAAAAAAAA".
Definition issuer_x : bytes := Bytes "XXXXXXXXXXXXXXXXXXXXXXXXXXXXXXXX".
Definition issuer_y : bytes := Bytes "YYYYYYYYYYYYYYYYYYYYYYYYYYYYYYYY".

(** A call to the created application. *)
Definition call (sender : bytes) (time : N) (args : list string) : Ctx :=
  {| Txn_sender := sender;
     Txn_application_id := 1;
     Txn_on_completion := NoOp;
     Txn_application_args := Bytes <$> args;
     Global_latest_timestamp := time |}.

(** The same with arguments given as raw bytes. *)
Definition call_raw (sender : bytes) (time : N) (args : list bytes) : Ctx :=
  {| Txn_sender := sender;
     Txn_application_id := 1;
     Txn_on_completion := NoOp;
     Txn_application_args := args;
     Global_latest_timestamp := time |}.

(** The creation call. *)
Definition create (sender : bytes) (time : N) : Ctx :=
  {| Txn_sender := sender;
     Txn_application_id := 0;
     Txn_on_completion := NoOp;
     Txn_application_args := [];
     Global_latest_timestamp := time |}.

Definition x : string := "XXXXXXXXXXXXXXXXXXXXXXXXXXXXXXXX".
Definition y : string := "YYYYYYYYYYYYYYYYYYYYYYYYYYYYYYYY".

Definition add (sender : bytes) (time : N) (address name url : string) : Ctx :=
  call sender time
    ["add_issuer"; address; name; "Government Records Office"; url;
     "government"; "US"]%string.

Definition update (sender : bytes) (time : N) (address name url : string)
  : Ctx :=
  call sender time
    ["update_metadata"; address; name; "Government Records Office"; url;
     "government"; "US"]%string.

Definition revoke (sender : bytes) (time : N) (address : bytes) (flag : N)
  : Ctx :=
  call_raw sender time [Bytes "revoke_issuer"; address; Itob flag].

Definition reinstate (sender : bytes) (time : N) (address : string) : Ctx :=
  call sender time ["reinstate_issuer"; address]%string.

Definition query (time : N) (method address : string) : Ctx :=
  call issuer_y time [method; address].

(** The registry right after creation by the admin at time 5. *)
Definition created : State :=
  registry_after (create admin_address 5) [].

(** ... after the admin added issuer X at time 5 ... *)
Definition with_x : State :=
  registry_after (create admin_address 5)
    [add admin_address 5 x "Gov Office" "https://gov.example"].

(** ... and after X was revoked (with the flag set) at time 9. *)
Definition with_x_revoked : State :=
  registry_after (create admin_address 5)
    [add admin_address 5 x "Gov Office" "https://gov.example";
     revoke admin_address 9 issuer_x 1].

(** The shortest history in which X is revoked in the very block that
    authorized it: both calls see timestamp 5. *)
Definition same_block_calls : list Ctx :=
  [add admin_address 5 x "Gov Office" "https://gov.example";
   revoke admin_address 5 issuer_x 0].

End Sample.

(** ** Well-formed stores

    Properties of the store as a whole, used for the histories of the
    registry. *)

(** Every caller of a sequence of calls is an account: a 32-byte address. *)
Definition senders_are_addresses (calls : list Ctx) : Prop :=
  Forall (fun c => length (Txn_sender c) = 32%nat) calls.

(** Every issuer record has the 56 bytes of the four fields. *)
Definition issuer_records_wellformed (st : State) : Prop :=
  forall k v, plain_key k -> App_box_get k st = Some v -> length v = 56%nat.

(** Every issuer record comes with a metadata box. *)
Definition issuer_records_have_metadata (st : State) : Prop :=
  forall k, plain_key k -> is_Some (App_box_get k st) ->
    is_Some (App_box_get (Concat [Bytes "meta:"; k]) st).

(** A call that deletes or updates the application when the admin sends
    it. *)
Definition deletes_or_updates (c : Ctx) : Prop :=
  Txn_on_completion c = DeleteApplication
  \/ Txn_on_completion c = UpdateApplication.

(** Calls to an application that stays in place: each goes to the created
    application, and none is a delete or an update sent by the admin [a]
    (sent by anyone else it is rejected). *)
Definition application_stays (a : bytes) (calls : list Ctx) : Prop :=
  Forall (fun c => Txn_application_id c <> 0
                   /\ (deletes_or_updates c -> Txn_sender c <> a)) calls.

(** The boxes a call with first argument [x] may write. *)
Definition own_keys (x : bytes) : list bytes :=
  [x; Concat [Bytes "meta:"; x]; Concat [Bytes "cred:"; x]].

(** ** Proof support *)

#[global] Arguments Itob : simpl never.
#[global] Arguments Bytes : simpl never.
#[global] Arguments Extract : simpl never.
#[global] Arguments Substring : simpl never.
#[global] Arguments Btoi : simpl never.

(** Reduce the monadic plumbing of a handler, and nothing else. *)
Ltac run :=
  cbn [bind Assert negb hasValue orb andb from_option id commit fst snd].

(** ** Facts about the opcodes *)

Section Opcodes.

Lemma length_be_bytes (w : nat) (n : N) : length (be_bytes w n) = w.
Proof. induction w as [|w IH]; simpl; [reflexivity | now rewrite IH]. Qed.

Lemma length_Itob (n : N) : length (Itob n) = 8%nat.
Proof. apply length_be_bytes. Qed.

Lemma be_value_be_bytes (w : nat) (n acc : N) :
  be_value acc (be_bytes w n) = acc * 256 ^ N.of_nat w + n mod 256 ^ N.of_nat w.
Proof.
  revert acc. induction w as [|w IH]; intros acc.
  - simpl. rewrite N.mod_1_r. lia.
  - cbn [be_bytes be_value]. rewrite IH.
    rewrite N_ascii_embedding by (apply N.mod_lt; lia).
    rewrite Nat2N.inj_succ, N.pow_succ_r'.
    set (p := 256 ^ N.of_nat w).
    assert (Hp : p <> 0) by (apply N.pow_nonzero; lia).
    rewrite (N.mul_comm 256 p), (N.Div0.mod_mul_r n p 256).
    lia.
Qed.

Lemma Btoi_Itob (n : N) : n < uint64_max -> Btoi (Itob n) = Ok n.
Proof.
  intros Hn. unfold Btoi. rewrite length_Itob.
  change (8 <=? 8)%nat with true. cbv iota.
  unfold Itob. rewrite be_value_be_bytes.
  f_equal. rewrite N.mod_small; [lia | exact Hn].
Qed.

(** [Extract] picks the middle of a concatenation. *)
Lemma Extract_app (p m r : bytes) (s l : nat) :
  length p = s -> length m = l -> Extract (p ++ m ++ r) s l = Ok m.
Proof.
  intros <- <-. unfold Extract.
  rewrite !length_app.
  destruct (Nat.leb_spec (length p + length m) (length p + (length m + length r)))
    as [_|H]; [|lia].
  f_equal. rewrite drop_app_length. apply take_app_length.
Qed.

Lemma Extract_length (b : bytes) (s l : nat) (x : bytes) :
  Extract b s l = Ok x -> length x = l /\ (s + l <= length b)%nat.
Proof.
  unfold Extract. destruct (Nat.leb_spec (s + l) (length b)) as [H|H]; [|discriminate].
  intros [= <-]. rewrite length_take, length_drop. lia.
Qed.

Lemma Extract_Ok (b : bytes) (s l : nat) :
  (s + l <= length b)%nat -> Extract b s l = Ok (take l (drop s b)).
Proof.
  intros H. unfold Extract.
  destruct (Nat.leb_spec (s + l) (length b)); [reflexivity | lia].
Qed.

Lemma Extract_Err (b : bytes) (s l : nat) :
  (length b < s + l)%nat -> Extract b s l = Err Panic.
Proof.
  intros H. unfold Extract.
  destruct (Nat.leb_spec (s + l) (length b)); [lia | reflexivity].
Qed.

End Opcodes.

(** ** Facts about box and global storage *)

Section Storage.

Variables (st : State) (k v : bytes).

Lemma App_box_put_fresh :
  App_box_get k st = None -> valid_box_name k = true ->
  App_box_put k v st = Ok (store_box k v st).
Proof. unfold App_box_get, App_box_put. now intros -> ->. Qed.

Lemma App_box_put_same (old : bytes) :
  App_box_get k st = Some old -> length old = length v ->
  App_box_put k v st = Ok (store_box k v st).
Proof.
  unfold App_box_get, App_box_put. intros -> Hlen.
  now destruct (decide (length old = length v)).
Qed.

Lemma App_box_put_Ok (st' : State) :
  App_box_put k v st = Ok st' -> st' = store_box k v st.
Proof.
  unfold App_box_put. destruct (boxes st !! k) as [old|].
  - destruct (decide (length old = length v)); [|discriminate]. now intros [= <-].
  - destruct (valid_box_name k); [|discriminate]. now intros [= <-].
Qed.

Lemma valid_box_name_true (name : bytes) :
  (1 <= length name <= 64)%nat -> valid_box_name name = true.
Proof.
  intros [H1 H64]. unfold valid_box_name.
  destruct (Nat.leb_spec 1 (length name)); [|lia].
  destruct (Nat.leb_spec (length name) 64); [reflexivity | lia].
Qed.

Lemma length_prefixed_key (p : string) (x : bytes) :
  length (Concat [Bytes p; x]) = (String.length p + length x)%nat.
Proof.
  unfold Concat, Bytes. cbn [concat]. rewrite !length_app. cbn [length].
  rewrite Nat.add_0_r. f_equal. induction p as [|c p IH]; cbn; congruence.
Qed.

Lemma valid_prefixed_key (p : string) (x : bytes) :
  (1 <= String.length p)%nat ->
  (String.length p + length x <= 64)%nat ->
  valid_box_name (Concat [Bytes p; x]) = true.
Proof.
  intros Hp Hx. apply valid_box_name_true. rewrite length_prefixed_key. lia.
Qed.

Lemma box_get_store_eq : App_box_get k (store_box k v st) = Some v.
Proof. unfold App_box_get, store_box. cbn. apply lookup_insert_eq. Qed.

Lemma box_get_store_ne (k' : bytes) :
  k <> k' -> App_box_get k' (store_box k v st) = App_box_get k' st.
Proof. intros Hne. unfold App_box_get, store_box. cbn. now apply lookup_insert_ne. Qed.

Lemma globals_store_box : globals (store_box k v st) = globals st.
Proof. reflexivity. Qed.

Lemma globalGet_store_box (g : bytes) :
  App_globalGet g (store_box k v st) = App_globalGet g st.
Proof. reflexivity. Qed.

Lemma box_get_globalPut (g : bytes) (x : TealValue) :
  App_box_get k (App_globalPut g x st) = App_box_get k st.
Proof. reflexivity. Qed.

Lemma globalGet_globalPut_eq (g : bytes) (x : TealValue) :
  App_globalGet g (App_globalPut g x st) = x.
Proof. unfold App_globalGet, App_globalPut. cbn. now rewrite lookup_insert_eq. Qed.

Lemma globalGet_globalPut_ne (g g' : bytes) (x : TealValue) :
  g <> g' -> App_globalGet g' (App_globalPut g x st) = App_globalGet g' st.
Proof.
  intros Hne. unfold App_globalGet, App_globalPut. cbn.
  now rewrite lookup_insert_ne.
Qed.

End Storage.

(** A prefixed key is longer than the key it is built from, so the two
    never coincide. *)
Lemma prefixed_key_ne (p : string) (address : bytes) :
  p <> ""%string -> Concat [Bytes p; address] <> address.
Proof.
  intros Hp Heq. apply (f_equal length) in Heq.
  unfold Concat, Bytes in Heq. cbn [concat] in Heq.
  rewrite !length_app in Heq.
  destruct p; [congruence|]. cbn in Heq. lia.
Qed.

(** ** The layout of an issuer box *)

Section IssuerBox.

Variables a r f v : bytes.
Hypothesis Ha : length a = 8%nat.
Hypothesis Hr : length r = 8%nat.
Hypothesis Hf : length f = 8%nat.
Hypothesis Hv : length v = 32%nat.

Local Abbreviation box := (IssuerRegistry.issuer_box_value a r f v).

Lemma box_unfold : box = a ++ r ++ f ++ v.
Proof.
  unfold IssuerRegistry.issuer_box_value, Concat. simpl. now rewrite app_nil_r.
Qed.

Lemma length_issuer_box : length box = 56%nat.
Proof. rewrite box_unfold, !length_app. lia. Qed.

Lemma Extract_issuer_box_0 : Extract box 0 8 = Ok a.
Proof. rewrite box_unfold. now apply (Extract_app [] a (r ++ f ++ v)). Qed.

Lemma Extract_issuer_box_8 : Extract box 8 8 = Ok r.
Proof. rewrite box_unfold. now apply (Extract_app a r (f ++ v)). Qed.

Lemma Extract_issuer_box_16 : Extract box 16 8 = Ok f.
Proof.
  rewrite box_unfold.
  replace (a ++ r ++ f ++ v) with ((a ++ r) ++ f ++ v) by now rewrite <- app_assoc.
  apply Extract_app; [rewrite length_app; lia | exact Hf].
Qed.

Lemma Extract_issuer_box_24 : Extract box 24 32 = Ok v.
Proof.
  rewrite box_unfold.
  replace (a ++ r ++ f ++ v) with ((a ++ r ++ f) ++ v ++ [])
    by now rewrite app_nil_r, <- !app_assoc.
  apply Extract_app; [rewrite !length_app; lia | exact Hv].
Qed.

Lemma authorized_at_issuer_box : authorized_at box = Btoi a.
Proof. unfold authorized_at. now rewrite Extract_issuer_box_0. Qed.

Lemma revoked_at_issuer_box : revoked_at box = Btoi r.
Proof. unfold revoked_at. now rewrite Extract_issuer_box_8. Qed.

Lemma revoke_all_prior_issuer_box : revoke_all_prior box = Btoi f.
Proof. unfold revoke_all_prior. now rewrite Extract_issuer_box_16. Qed.

Lemma vouched_by_issuer_box : vouched_by box = Ok v.
Proof. unfold vouched_by. now rewrite Extract_issuer_box_24. Qed.

End IssuerBox.

(** ** Authorization and validation checks *)

Section Checks.

Variables (ctx : Ctx) (st : State).

Lemma is_admin_eq (a : bytes) :
  admin st = Ok a ->
  IssuerRegistry.is_admin ctx st = Ok (bool_decide (Txn_sender ctx = a)).
Proof.
  unfold admin, IssuerRegistry.is_admin. intros ->. reflexivity.
Qed.

Lemma is_admin_true (a : bytes) :
  admin st = Ok a -> Txn_sender ctx = a ->
  IssuerRegistry.is_admin ctx st = Ok true.
Proof.
  intros Ha Hs. rewrite (is_admin_eq a Ha). now rewrite bool_decide_eq_true_2.
Qed.

Lemma is_admin_false (a : bytes) :
  admin st = Ok a -> Txn_sender ctx <> a ->
  IssuerRegistry.is_admin ctx st = Ok false.
Proof.
  intros Ha Hs. rewrite (is_admin_eq a Ha). now rewrite bool_decide_eq_false_2.
Qed.

Lemma beaker_is_admin : IssuerRegistryBeaker.is_admin = IssuerRegistry.is_admin.
Proof. reflexivity. Qed.

Lemma application_arg_lookup (i : nat) (x : bytes) :
  Txn_application_args ctx !! i = Some x -> application_arg ctx i = Ok x.
Proof. unfold application_arg. now intros ->. Qed.

End Checks.

Section Validation.

Variable ctx : Ctx.

Lemma validate_name_rule (name : bytes) :
  Txn_application_args ctx !! 2%nat = Some name ->
  IssuerRegistry.validate_name ctx = Ok (bool_decide (name_rule name)).
Proof.
  intros Hn. unfold IssuerRegistry.validate_name.
  rewrite (application_arg_lookup _ _ _ Hn). run. f_equal.
  unfold name_rule, Len.
  destruct (N.leb_spec 3 (N.of_nat (length name)));
    destruct (N.leb_spec (N.of_nat (length name)) 64); cbn [andb];
    symmetry; first [apply bool_decide_eq_true_2 | apply bool_decide_eq_false_2]; lia.
Qed.

Lemma Substring_prefix (url : bytes) (e : nat) :
  (e <= length url)%nat -> Substring url 0 e = Ok (take e url).
Proof.
  intros He. unfold Substring.
  destruct (Nat.leb_spec e (length url)); [|lia].
  cbn [Nat.leb andb]. now rewrite Nat.sub_0_r, drop_0.
Qed.

Lemma Substring_short (url : bytes) (e : nat) :
  (length url < e)%nat -> Substring url 0 e = Err Panic.
Proof.
  intros He. unfold Substring.
  destruct (Nat.leb_spec e (length url)); [lia|].
  now cbn [Nat.leb andb].
Qed.

(** A URL of at least 8 bytes is accepted exactly when it meets the rule. *)
Lemma validate_url_rule (url : bytes) :
  Txn_application_args ctx !! 4%nat = Some url ->
  (8 <= length url)%nat ->
  IssuerRegistry.validate_url ctx = Ok (bool_decide (url_rule url)).
Proof.
  intros Hu Hlen. unfold IssuerRegistry.validate_url.
  rewrite (application_arg_lookup _ _ _ Hu). run.
  rewrite !Substring_prefix by lia. run. f_equal.
  unfold url_rule, Len.
  destruct (decide (take 7 url = Bytes "http://")) as [H7|H7];
    destruct (decide (take 8 url = Bytes "https://")) as [H8|H8];
    rewrite ?(bool_decide_eq_true_2 _ H7), ?(bool_decide_eq_false_2 _ H7),
            ?(bool_decide_eq_true_2 _ H8), ?(bool_decide_eq_false_2 _ H8);
    cbn [orb andb];
    try (symmetry; apply bool_decide_eq_false_2; tauto);
    destruct (N.leb_spec 10 (N.of_nat (length url)));
    destruct (N.leb_spec (N.of_nat (length url)) 256); cbn [andb];
    symmetry;
    first [apply bool_decide_eq_true_2; split; [tauto | lia]
          | apply bool_decide_eq_false_2; lia ].
Qed.

(** A URL shorter than 8 bytes makes the prefix test itself fail. *)
Lemma validate_url_short (url : bytes) :
  Txn_application_args ctx !! 4%nat = Some url ->
  (length url < 8)%nat ->
  IssuerRegistry.validate_url ctx = Err Panic.
Proof.
  intros Hu Hlen. unfold IssuerRegistry.validate_url.
  rewrite (application_arg_lookup _ _ _ Hu). run.
  destruct (Nat.le_gt_cases 7 (length url)) as [H7|H7].
  - rewrite (Substring_prefix url 7) by lia. run.
    now rewrite Substring_short by lia.
  - now rewrite Substring_short by lia.
Qed.

End Validation.

(** ** Admin-only mutations *)

Section AdminOnly.

Variables (ctx : Ctx) (st : State) (a : bytes).
Hypothesis Hadmin : admin st = Ok a.
Hypothesis Hcaller : Txn_sender ctx <> a.

Lemma revoke_issuer_non_admin :
  IssuerRegistry.revoke_issuer ctx st = Err Unauthorized.
Proof.
  unfold IssuerRegistry.revoke_issuer.
  now rewrite (is_admin_false ctx st a Hadmin Hcaller).
Qed.

Lemma reinstate_issuer_non_admin :
  IssuerRegistry.reinstate_issuer ctx st = Err Unauthorized.
Proof.
  unfold IssuerRegistry.reinstate_issuer.
  now rewrite (is_admin_false ctx st a Hadmin Hcaller).
Qed.

Lemma update_metadata_non_admin :
  IssuerRegistry.update_metadata ctx st = Err Unauthorized.
Proof.
  unfold IssuerRegistry.update_metadata.
  now rewrite (is_admin_false ctx st a Hadmin Hcaller).
Qed.

Lemma revoke_credential_non_admin :
  IssuerRegistry.revoke_credential ctx st = Err Unauthorized.
Proof.
  unfold IssuerRegistry.revoke_credential.
  now rewrite (is_admin_false ctx st a Hadmin Hcaller).
Qed.

Lemma beaker_revoke_issuer_non_admin (address : bytes) :
  IssuerRegistryBeaker.revoke_issuer ctx address st = Err Unauthorized.
Proof.
  unfold IssuerRegistryBeaker.revoke_issuer. rewrite beaker_is_admin.
  now rewrite (is_admin_false ctx st a Hadmin Hcaller).
Qed.

Lemma beaker_update_metadata_non_admin (address n f u o j : bytes) :
  IssuerRegistryBeaker.update_metadata ctx address n f u o j st
  = Err Unauthorized.
Proof.
  unfold IssuerRegistryBeaker.update_metadata. rewrite beaker_is_admin.
  now rewrite (is_admin_false ctx st a Hadmin Hcaller).
Qed.

Lemma beaker_revoke_credential_non_admin (credential_id address : bytes) :
  IssuerRegistryBeaker.revoke_credential ctx credential_id address st
  = Err Unauthorized.
Proof.
  unfold IssuerRegistryBeaker.revoke_credential. rewrite beaker_is_admin.
  now rewrite (is_admin_false ctx st a Hadmin Hcaller).
Qed.

End AdminOnly.

Lemma fails_unchanged_intro (e : Error) (st : State) (o : Outcome) :
  o = Err e -> fails_unchanged e st o.
Proof. intros ->. split; reflexivity. Qed.

(** C3.  A caller other than the [admin] global cannot revoke an issuer,
    update metadata or revoke a credential: in both contracts each of the
    three calls fails on the admin check, whatever its arguments, and the
    state (hence every stored record) is the one found before the call. *)
Theorem non_admin_mutation_unauthorized (ctx : Ctx) (st : State) (a : bytes) :
  admin st = Ok a ->
  Txn_sender ctx <> a ->
  fails_unchanged Unauthorized st (IssuerRegistry.revoke_issuer ctx st)
  /\ fails_unchanged Unauthorized st (IssuerRegistry.update_metadata ctx st)
  /\ fails_unchanged Unauthorized st (IssuerRegistry.revoke_credential ctx st)
  /\ (forall address,
        fails_unchanged Unauthorized st
          (IssuerRegistryBeaker.revoke_issuer ctx address st))
  /\ (forall address n f u o j,
        fails_unchanged Unauthorized st
          (IssuerRegistryBeaker.update_metadata ctx address n f u o j st))
  /\ (forall credential_id address,
        fails_unchanged Unauthorized st
          (IssuerRegistryBeaker.revoke_credential ctx credential_id address st)).
Proof.
  intros Ha Hs.
  refine (conj _ (conj _ (conj _ (conj _ (conj _ _)))));
    intros; apply fails_unchanged_intro;
    eauto using revoke_issuer_non_admin, update_metadata_non_admin,
      revoke_credential_non_admin, beaker_revoke_issuer_non_admin,
      beaker_update_metadata_non_admin, beaker_revoke_credential_non_admin.
Qed.

Lemma non_admin_mutation_unauthorized_witness :
  fails_unchanged Unauthorized Sample.with_x
    (IssuerRegistry.revoke_issuer
       (Sample.revoke Sample.issuer_x 9 Sample.issuer_x 1) Sample.with_x)
  /\ fails_unchanged Unauthorized Sample.with_x
       (IssuerRegistry.update_metadata
          (Sample.revoke Sample.issuer_x 9 Sample.issuer_x 1) Sample.with_x)
  /\ fails_unchanged Unauthorized Sample.with_x
       (IssuerRegistry.revoke_credential
          (Sample.revoke Sample.issuer_x 9 Sample.issuer_x 1) Sample.with_x).
Proof.
  destruct (non_admin_mutation_unauthorized
              (Sample.revoke Sample.issuer_x 9 Sample.issuer_x 1)
              Sample.with_x Sample.admin_address)
    as (Hrevoke & Hupdate & Hcredential & _).
  - vm_compute. reflexivity.
  - vm_compute. discriminate.
  - exact (conj Hrevoke (conj Hupdate Hcredential)).
Defined.

(** ** Inverting a successful run *)

Lemma bind_Ok {A B : Type} (m : Result A) (k : A -> Result B) (b : B) :
  bind m k = Ok b -> exists x, m = Ok x /\ k x = Ok b.
Proof. destruct m as [x|e]; [eauto | discriminate]. Qed.

Lemma bind_Err {A B : Type} (m : Result A) (k : A -> Result B) (e : Error) :
  m = Err e -> bind m k = Err e.
Proof. now intros ->. Qed.

Lemma Assert_Ok (c : bool) (e : Error) (u : unit) :
  Assert c e = Ok u -> c = true.
Proof. destruct c; [reflexivity | discriminate]. Qed.

(** Peel the first [let*] off a successful run [H]. *)
Tactic Notation "peel" hyp(H) "as" ident(x) ident(E) :=
  apply bind_Ok in H as (x & E & H).

(** Peel an [Assert] off a successful run [H]. *)
Tactic Notation "peel_assert" hyp(H) "as" ident(E) :=
  let u := fresh "u" in
  apply bind_Ok in H as (u & E & H); apply Assert_Ok in E.

Lemma as_uint_Ok (v : TealValue) (n : N) : as_uint v = Ok n -> v = Uint n.
Proof. destruct v; [now intros [= ->] | discriminate]. Qed.

Lemma Add_Ok (a b c : N) : Add a b = Ok c -> c = a + b /\ a + b < uint64_max.
Proof.
  unfold Add. destruct (N.ltb_spec (a + b) uint64_max); [|discriminate].
  now intros [= <-].
Qed.

Lemma Add_small (a b : N) : a + b < uint64_max -> Add a b = Ok (a + b).
Proof.
  intros H. unfold Add. destruct (N.ltb_spec (a + b) uint64_max); [reflexivity | lia].
Qed.

(** ** [add_issuer] *)

(** The state a successful [add_issuer] leaves. *)
Lemma add_issuer_Ok (ctx : Ctx) (st st' : State) (log : list bytes) :
  IssuerRegistry.add_issuer ctx st = Ok (st', log) ->
  exists address meta n,
    application_arg ctx 1 = Ok address
    /\ App_box_get address st = None
    /\ IssuerRegistry.meta_box_value ctx = Ok meta
    /\ issuer_count st = Ok n
    /\ n + 1 < uint64_max
    /\ st' = App_globalPut (Bytes "issuer_count") (Uint (n + 1))
               (store_box (Concat [Bytes "meta:"; address]) meta
                  (store_box address
                     (IssuerRegistry.issuer_box_value
                        (Itob (Global_latest_timestamp ctx)) (Itob 0) (Itob 0)
                        (Txn_sender ctx)) st)).
Proof.
  unfold IssuerRegistry.add_issuer. intros H.
  peel H as name_ok Hname. peel_assert H as Hname_ok.
  peel H as url_ok Hurl. peel_assert H as Hurl_ok.
  peel H as adm Hadm. peel H as act Hact. peel_assert H as Hauth.
  peel H as address Haddr. peel_assert H as Hfree.
  peel H as st1 Hput1. peel H as meta Hmeta. peel H as st2 Hput2.
  peel H as n Hcount. peel H as n' Hadd. injection H as <- <-.
  destruct (App_box_get address st) as [old|] eqn:Hbox; [discriminate Hfree|].
  apply App_box_put_Ok in Hput1, Hput2. subst st1 st2.
  apply as_uint_Ok in Hcount. rewrite !globalGet_store_box in Hcount.
  apply Add_Ok in Hadd as [-> Hlt].
  exists address, meta, n. repeat split; try assumption.
  unfold issuer_count. now rewrite Hcount.
Qed.

Lemma Btoi_short (b : bytes) : (length b <= 8)%nat -> exists n, Btoi b = Ok n.
Proof.
  intros H. unfold Btoi. destruct (Nat.leb_spec (length b) 8); [eauto | lia].
Qed.

Lemma is_active_issuer_revoked_at (address v : bytes) (st : State) :
  App_box_get address st = Some v ->
  IssuerRegistry.is_active_issuer address st
  = (let* n := revoked_at v in Ok (n =? 0)).
Proof.
  intros Hv. unfold IssuerRegistry.is_active_issuer, revoked_at. rewrite Hv.
  now destruct (Extract v 8 8).
Qed.

Lemma active_issuer_check (address : bytes) (st : State) :
  active_issuer address st ->
  IssuerRegistry.is_active_issuer address st = Ok true.
Proof.
  intros (v & Hv & Hr). rewrite (is_active_issuer_revoked_at _ _ _ Hv), Hr.
  reflexivity.
Qed.

(** The authorization test of [add_issuer] passes for the admin and for
    active issuers. *)
Lemma caller_authorized_check (ctx : Ctx) (st : State) :
  caller_authorized ctx st ->
  exists adm act,
    IssuerRegistry.is_admin ctx st = Ok adm
    /\ IssuerRegistry.is_active_issuer (Txn_sender ctx) st = Ok act
    /\ adm || act = true.
Proof.
  intros (a & Ha & [[Hs Hbox] | Hact]).
  - exists true. rewrite (is_admin_true ctx st a Ha Hs).
    destruct (App_box_get (Txn_sender ctx) st) as [v|] eqn:Hv.
    + rewrite (is_active_issuer_revoked_at _ _ _ Hv). unfold revoked_at.
      specialize (Hbox v eq_refl).
      rewrite Extract_Ok by lia. run.
      destruct (Btoi_short (take 8 (drop 8 v))) as [n ->].
      { rewrite length_take. lia. }
      run. eauto.
    + exists false. unfold IssuerRegistry.is_active_issuer. rewrite Hv. eauto.
  - rewrite (is_admin_eq ctx st a Ha), (active_issuer_check _ _ Hact).
    eexists _, true. repeat split. apply orb_true_r.
Qed.

Lemma meta_box_value_args (ctx : Ctx)
    (sel address name full_name url organization_type jurisdiction : bytes) :
  Txn_application_args ctx
  = [sel; address; name; full_name; url; organization_type; jurisdiction] ->
  IssuerRegistry.meta_box_value ctx
  = Ok (Concat [Itob (Global_latest_timestamp ctx); name; full_name; url;
                organization_type; jurisdiction]).
Proof.
  intros Hargs. unfold IssuerRegistry.meta_box_value, application_arg.
  rewrite Hargs. reflexivity.
Qed.

(** The fields of a freshly written issuer box. *)
Lemma fresh_issuer_box_fields (t : N) (sender : bytes) :
  t < uint64_max ->
  length sender = 32%nat ->
  let v := IssuerRegistry.issuer_box_value (Itob t) (Itob 0) (Itob 0) sender in
  authorized_at v = Ok t /\ revoked_at v = Ok 0
  /\ revoke_all_prior v = Ok 0 /\ vouched_by v = Ok sender.
Proof.
  intros Ht Hs v. unfold authorized_at, revoked_at, revoke_all_prior, vouched_by, v.
  rewrite Extract_issuer_box_0, Extract_issuer_box_8, Extract_issuer_box_16,
    Extract_issuer_box_24 by (apply length_Itob || exact Hs).
  run. rewrite !Btoi_Itob by (exact Ht || (unfold uint64_max; lia)).
  repeat split.
Qed.

(** C1.  When the caller is the admin or an active issuer, the address has
    no issuer box, the metadata meets both Validation Rules, and the seven
    call arguments, a 32-byte sender, a [uint64] timestamp and room in the
    counter and in the metadata box are given, and the address is short
    enough for ["meta:" + address] to be a box name (1 to 59 bytes),
    [add_issuer] succeeds and leaves: an issuer box for the address with
    [authorized_at] the call time, [revoked_at = 0],
    [revoke_all_prior = 0] and [vouched_by] the caller; the metadata box
    under ["meta:" + address]; and [issuer_count] one higher. *)
Theorem add_issuer_creates_records (ctx : Ctx) (st : State)
    (sel address name full_name url organization_type jurisdiction : bytes)
    (n : N) :
  let meta := Concat [Itob (Global_latest_timestamp ctx); name; full_name;
                      url; organization_type; jurisdiction] in
  let meta_key := Concat [Bytes "meta:"; address] in
  Txn_application_args ctx
  = [sel; address; name; full_name; url; organization_type; jurisdiction] ->
  (1 <= length address <= 59)%nat ->
  length (Txn_sender ctx) = 32%nat ->
  Global_latest_timestamp ctx < uint64_max ->
  caller_authorized ctx st ->
  App_box_get address st = None ->
  name_rule name ->
  url_rule url ->
  issuer_count st = Ok n ->
  n + 1 < uint64_max ->
  (forall old, App_box_get meta_key st = Some old -> length old = length meta) ->
  exists st',
    IssuerRegistry.add_issuer ctx st = Ok (st', [])
    /\ (exists v,
         App_box_get address st' = Some v
         /\ authorized_at v = Ok (Global_latest_timestamp ctx)
         /\ revoked_at v = Ok 0
         /\ revoke_all_prior v = Ok 0
         /\ vouched_by v = Ok (Txn_sender ctx))
    /\ App_box_get meta_key st' = Some meta
    /\ issuer_count st' = Ok (n + 1).
Proof.
  intros meta meta_key Hargs Hbound Hsender Htime Hauth Hfree Hname Hurl Hcount
    Hroom Hmeta.
  assert (Hname1 : valid_box_name address = true)
    by (apply valid_box_name_true; lia).
  assert (Hname2 : valid_box_name meta_key = true)
    by (apply valid_prefixed_key; cbn; lia).
  assert (Hkey : address <> meta_key).
  { intros Heq. symmetry in Heq. revert Heq. now apply prefixed_key_ne. }
  destruct (caller_authorized_check ctx st Hauth) as (adm & act & Hadm & Hact & Hor).
  set (box := IssuerRegistry.issuer_box_value
                (Itob (Global_latest_timestamp ctx)) (Itob 0) (Itob 0)
                (Txn_sender ctx)).
  assert (Hput2 : App_box_put meta_key meta (store_box address box st)
                  = Ok (store_box meta_key meta (store_box address box st))).
  { destruct (App_box_get meta_key st) as [old|] eqn:Hold.
    - apply (App_box_put_same _ _ _ old); [|now apply Hmeta].
      now rewrite box_get_store_ne.
    - apply App_box_put_fresh; [now rewrite box_get_store_ne | exact Hname2]. }
  eexists. split; [|split; [|split]].
  - unfold IssuerRegistry.add_issuer.
    rewrite (validate_name_rule ctx name) by now rewrite Hargs.
    rewrite (bool_decide_eq_true_2 _ Hname). run.
    rewrite (validate_url_rule ctx url)
      by (rewrite ?Hargs; try reflexivity; destruct Hurl; lia).
    rewrite (bool_decide_eq_true_2 _ Hurl). run.
    rewrite Hadm, Hact. run. rewrite Hor. run.
    rewrite (application_arg_lookup ctx 1 address) by now rewrite Hargs.
    run. rewrite Hfree. run.
    rewrite (App_box_put_fresh _ _ _ Hfree Hname1). run.
    rewrite (meta_box_value_args _ _ _ _ _ _ _ _ Hargs). run.
    fold box meta meta_key. rewrite Hput2. run.
    rewrite !globalGet_store_box. unfold issuer_count in Hcount.
    rewrite Hcount. run. rewrite (Add_small _ _ Hroom). run. reflexivity.
  - exists box. split.
    + rewrite box_get_globalPut, box_get_store_ne, box_get_store_eq; auto.
    + now apply fresh_issuer_box_fields.
  - now rewrite box_get_globalPut, box_get_store_eq.
  - unfold issuer_count. now rewrite globalGet_globalPut_eq.
Qed.

Lemma add_issuer_creates_records_witness :
  exists st',
    IssuerRegistry.add_issuer
      (Sample.add Sample.admin_address 5 Sample.x "Gov Office"
         "https://gov.example") Sample.created = Ok (st', [])
    /\ (exists v,
         App_box_get Sample.issuer_x st' = Some v
         /\ authorized_at v = Ok 5
         /\ revoked_at v = Ok 0
         /\ revoke_all_prior v = Ok 0
         /\ vouched_by v = Ok Sample.admin_address)
    /\ App_box_get (Concat [Bytes "meta:"; Sample.issuer_x]) st'
       = Some (Concat [Itob 5; Bytes "Gov Office";
                       Bytes "Government Records Office";
                       Bytes "https://gov.example"; Bytes "government";
                       Bytes "US"])
    /\ issuer_count st' = Ok (0 + 1).
Proof.
  apply (add_issuer_creates_records
           (Sample.add Sample.admin_address 5 Sample.x "Gov Office"
              "https://gov.example") Sample.created
           (Bytes "add_issuer") Sample.issuer_x (Bytes "Gov Office")
           (Bytes "Government Records Office") (Bytes "https://gov.example")
           (Bytes "government") (Bytes "US") 0).
  - reflexivity.
  - vm_compute. lia.
  - reflexivity.
  - reflexivity.
  - exists Sample.admin_address. split; [reflexivity|]. left.
    split; [reflexivity|]. intros v Hv. vm_compute in Hv. discriminate Hv.
  - vm_compute. reflexivity.
  - unfold name_rule. vm_compute. lia.
  - unfold url_rule. split; [right; vm_compute; reflexivity | vm_compute; lia].
  - vm_compute. reflexivity.
  - reflexivity.
  - intros old Hold. vm_compute in Hold. discriminate Hold.
Defined.

(** ** The other mutating handlers, inverted *)

Lemma revoke_issuer_Ok (ctx : Ctx) (st st' : State) (log : list bytes) :
  IssuerRegistry.revoke_issuer ctx st = Ok (st', log) ->
  exists address old a flag vb,
    application_arg ctx 1 = Ok address
    /\ App_box_get address st = Some old
    /\ Extract old 0 8 = Ok a
    /\ Extract old 24 32 = Ok vb
    /\ st' = store_box address
               (IssuerRegistry.issuer_box_value a
                  (Itob (Global_latest_timestamp ctx)) (Itob flag) vb) st.
Proof.
  unfold IssuerRegistry.revoke_issuer. intros H.
  peel H as adm Hadm. peel_assert H as Hadm_ok.
  peel H as address Haddr. peel_assert H as Hexists.
  destruct (App_box_get address st) as [old|] eqn:Hbox; [|discriminate Hexists].
  cbn [from_option id] in H.
  peel H as a Ha. peel H as flag_arg Hflag. peel H as flag Hbtoi.
  peel H as vb Hvb. peel H as st1 Hput. injection H as <- <-.
  apply App_box_put_Ok in Hput. subst st1.
  exists address, old, a, flag, vb. repeat split; assumption.
Qed.

Lemma reinstate_issuer_Ok (ctx : Ctx) (st st' : State) (log : list bytes) :
  IssuerRegistry.reinstate_issuer ctx st = Ok (st', log) ->
  exists address old vb,
    application_arg ctx 1 = Ok address
    /\ App_box_get address st = Some old
    /\ Extract old 24 32 = Ok vb
    /\ st' = store_box address
               (IssuerRegistry.issuer_box_value
                  (Itob (Global_latest_timestamp ctx)) (Itob 0) (Itob 0) vb) st.
Proof.
  unfold IssuerRegistry.reinstate_issuer. intros H.
  peel H as adm Hadm. peel_assert H as Hadm_ok.
  peel H as address Haddr. peel_assert H as Hexists.
  destruct (App_box_get address st) as [old|] eqn:Hbox; [|discriminate Hexists].
  cbn [from_option id] in H.
  peel H as vb Hvb. peel H as st1 Hput. injection H as <- <-.
  apply App_box_put_Ok in Hput. subst st1.
  exists address, old, vb. repeat split; assumption.
Qed.

Lemma revoke_credential_Ok (ctx : Ctx) (st st' : State) (log : list bytes) :
  IssuerRegistry.revoke_credential ctx st = Ok (st', log) ->
  exists credential_id value,
    st' = store_box (Concat [Bytes "cred:"; credential_id]) value st.
Proof.
  unfold IssuerRegistry.revoke_credential. intros H.
  peel H as adm Hadm. peel_assert H as Hadm_ok.
  peel H as credential_id Hid. peel H as address Haddr.
  peel H as st1 Hput. injection H as <- <-.
  apply App_box_put_Ok in Hput. eauto.
Qed.

Lemma update_metadata_Ok (ctx : Ctx) (st st' : State) (log : list bytes) :
  IssuerRegistry.update_metadata ctx st = Ok (st', log) ->
  exists address value,
    st' = store_box (Concat [Bytes "meta:"; address]) value st.
Proof.
  unfold IssuerRegistry.update_metadata. intros H.
  peel H as adm Hadm. peel_assert H as Hadm_ok.
  peel H as name_ok Hname. peel_assert H as Hname_ok.
  peel H as url_ok Hurl. peel_assert H as Hurl_ok.
  peel H as address Haddr. peel_assert H as Hexists.
  peel H as meta Hmeta. peel H as st1 Hput. injection H as <- <-.
  apply App_box_put_Ok in Hput. eauto.
Qed.

Lemma log_box_state (k : bytes) (st : State) :
  commit st (IssuerRegistry.log_box k st) = st.
Proof.
  unfold IssuerRegistry.log_box.
  destruct (App_box_get k st) as [value|]; [|reflexivity].
  now destruct (Log value).
Qed.

Lemma query_issuer_state (ctx : Ctx) (st : State) :
  commit st (IssuerRegistry.query_issuer ctx st) = st.
Proof.
  unfold IssuerRegistry.query_issuer.
  destruct (application_arg ctx 1); [apply log_box_state | reflexivity].
Qed.

Lemma query_credential_state (ctx : Ctx) (st : State) :
  commit st (IssuerRegistry.query_credential ctx st) = st.
Proof.
  unfold IssuerRegistry.query_credential.
  destruct (application_arg ctx 1); [apply log_box_state | reflexivity].
Qed.

Lemma query_metadata_state (ctx : Ctx) (st : State) :
  commit st (IssuerRegistry.query_metadata ctx st) = st.
Proof.
  unfold IssuerRegistry.query_metadata.
  destruct (application_arg ctx 1); [apply log_box_state | reflexivity].
Qed.

Lemma admin_only_state (ctx : Ctx) (st : State) :
  commit st (IssuerRegistry.admin_only ctx st) = st.
Proof.
  unfold IssuerRegistry.admin_only.
  destruct (IssuerRegistry.is_admin ctx st) as [[|]|]; reflexivity.
Qed.

(** ** The effect of one call *)

Section Effect.

Variables (c : Ctx) (st : State).

Lemma add_issuer_effect :
  effect c st (commit st (IssuerRegistry.add_issuer c st)).
Proof.
  destruct (IssuerRegistry.add_issuer c st) as [[st' log]|e] eqn:H;
    [|apply effect_none].
  apply add_issuer_Ok in H as (address & meta & n & _ & Hfree & _ & Hn & Hlt & ->).
  now apply effect_add.
Qed.

Lemma revoke_issuer_effect :
  effect c st (commit st (IssuerRegistry.revoke_issuer c st)).
Proof.
  destruct (IssuerRegistry.revoke_issuer c st) as [[st' log]|e] eqn:H;
    [|apply effect_none].
  apply revoke_issuer_Ok in H as (address & old & a & flag & vb & _ & Hold & Ha & Hvb & ->).
  now apply (effect_revoke c st address old).
Qed.

Lemma reinstate_issuer_effect :
  effect c st (commit st (IssuerRegistry.reinstate_issuer c st)).
Proof.
  destruct (IssuerRegistry.reinstate_issuer c st) as [[st' log]|e] eqn:H;
    [|apply effect_none].
  apply reinstate_issuer_Ok in H as (address & old & vb & _ & Hold & Hvb & ->).
  now apply (effect_reinstate c st address old).
Qed.

Lemma revoke_credential_effect :
  effect c st (commit st (IssuerRegistry.revoke_credential c st)).
Proof.
  destruct (IssuerRegistry.revoke_credential c st) as [[st' log]|e] eqn:H;
    [|apply effect_none].
  apply revoke_credential_Ok in H as (credential_id & value & ->).
  apply effect_credential.
Qed.

Lemma update_metadata_effect :
  effect c st (commit st (IssuerRegistry.update_metadata c st)).
Proof.
  destruct (IssuerRegistry.update_metadata c st) as [[st' log]|e] eqn:H;
    [|apply effect_none].
  apply update_metadata_Ok in H as (address & value & ->).
  apply effect_metadata.
Qed.

(** Every call routed by [program] to the created application has one of
    the effects. *)
Lemma program_effect :
  Txn_application_id c <> 0 ->
  effect c st (commit st (IssuerRegistry.program c st)).
Proof.
  intros Hid. unfold IssuerRegistry.program.
  destruct (N.eqb_spec (Txn_application_id c) 0) as [Heq|_]; [contradiction|].
  destruct (Txn_on_completion c);
    unfold IssuerRegistry.handle_delete, IssuerRegistry.handle_update,
      IssuerRegistry.handle_optin, IssuerRegistry.handle_closeout;
    rewrite ?admin_only_state; try apply effect_none.
  all: destruct (application_arg c 0) as [selector|e]; [|apply effect_none].
  all: cbn [bind IssuerRegistry.dispatch IssuerRegistry.methods].
  all: repeat case_bool_decide;
    rewrite ?query_issuer_state, ?query_credential_state, ?query_metadata_state;
    auto using effect_none, add_issuer_effect, revoke_issuer_effect,
      reinstate_issuer_effect, revoke_credential_effect, update_metadata_effect.
Qed.

End Effect.

(** ** Revocation never precedes authorization *)

Lemma prefixed_key_not_plain (p : string) (x : bytes) :
  p = "meta:"%string \/ p = "cred:"%string ->
  ~ plain_key (Concat [Bytes p; x]).
Proof.
  intros Hp [Hmeta Hcred].
  assert (Hpre : Bytes p `prefix_of` Concat [Bytes p; x]).
  { exists (x ++ []). reflexivity. }
  destruct Hp as [-> | ->]; contradiction.
Qed.

Lemma plain_key_ne_prefixed (p : string) (k x : bytes) :
  p = "meta:"%string \/ p = "cred:"%string ->
  plain_key k -> Concat [Bytes p; x] <> k.
Proof.
  intros Hp Hk <-. now apply (prefixed_key_not_plain p x).
Qed.

Lemma bounded_weaken (t t' : N) (st : State) :
  t <= t' -> issuer_records_bounded t st -> issuer_records_bounded t' st.
Proof.
  intros Hle Hb k v Hk Hv.
  destruct (Hb k v Hk Hv) as (a & r & Ha & Hr & Hat & Hor).
  exists a, r. repeat split; try assumption. lia.
Qed.

Lemma bounded_store_other (t : N) (st : State) (p : string) (x value : bytes) :
  p = "meta:"%string \/ p = "cred:"%string ->
  issuer_records_bounded t st ->
  issuer_records_bounded t (store_box (Concat [Bytes p; x]) value st).
Proof.
  intros Hp Hb k v Hk Hv.
  rewrite box_get_store_ne in Hv by now apply plain_key_ne_prefixed.
  exact (Hb k v Hk Hv).
Qed.

Lemma bounded_store_issuer (t : N) (st : State) (address a r f vb : bytes)
    (ta tr : N) :
  length a = 8%nat -> length r = 8%nat ->
  Btoi a = Ok ta -> Btoi r = Ok tr ->
  ta <= t -> (tr = 0 \/ ta <= tr) ->
  issuer_records_bounded t st ->
  issuer_records_bounded t
    (store_box address (IssuerRegistry.issuer_box_value a r f vb) st).
Proof.
  intros Hla Hlr Ha Hr Hat Hor Hb k v Hk Hv.
  destruct (decide (address = k)) as [<-|Hne].
  - rewrite box_get_store_eq in Hv. injection Hv as <-.
    exists ta, tr.
    rewrite authorized_at_issuer_box, revoked_at_issuer_box by assumption.
    auto.
  - rewrite box_get_store_ne in Hv by assumption. exact (Hb k v Hk Hv).
Qed.

(** One call keeps the records in order, provided its timestamp is not
    before the ones seen so far. *)
Lemma effect_bounded (c : Ctx) (st st' : State) (t : N) :
  effect c st st' ->
  Global_latest_timestamp c < uint64_max ->
  t <= Global_latest_timestamp c ->
  issuer_records_bounded t st ->
  issuer_records_bounded (Global_latest_timestamp c) st'.
Proof.
  intros Heff Hmax Hle Hb.
  apply (bounded_weaken _ _ _ Hle) in Hb.
  assert (Hzero : Btoi (Itob 0) = Ok 0)
    by (apply Btoi_Itob; unfold uint64_max; lia).
  destruct Heff as [| address meta n _ _ _ | address old a vb flag Hold Ha Hvb
                    | address old vb _ _ | credential_id value | address value ].
  - exact Hb.
  - intros k v Hk Hv. rewrite box_get_globalPut in Hv. revert k v Hk Hv.
    apply (bounded_store_other _ _ "meta:"); [now left|].
    apply (bounded_store_issuer _ _ _ _ _ _ _ (Global_latest_timestamp c) 0);
      auto using length_Itob, Btoi_Itob with lia.
  - destruct (decide (plain_key address)) as [Hplain|Hplain].
    + destruct (Hb address old Hplain Hold) as (ta & tr & Hta & _ & Hat & _).
      unfold authorized_at in Hta. rewrite Ha in Hta. cbn [bind] in Hta.
      apply (bounded_store_issuer _ _ _ _ _ _ _ ta (Global_latest_timestamp c));
        auto using length_Itob, Btoi_Itob.
      apply (Extract_length _ _ _ _ Ha).
    + intros k v Hk Hv.
      rewrite box_get_store_ne in Hv by (intros ->; contradiction).
      exact (Hb k v Hk Hv).
  - apply (bounded_store_issuer _ _ _ _ _ _ _ (Global_latest_timestamp c) 0);
      auto using length_Itob, Btoi_Itob with lia.
  - apply (bounded_store_other _ _ "cred:"); [now right | exact Hb].
  - apply (bounded_store_other _ _ "meta:"); [now left | exact Hb].
Qed.

Lemma run_calls_bounded (calls : list Ctx) (st : State) (t : N) :
  Forall app_call calls ->
  nondecreasing_from t calls ->
  issuer_records_bounded t st ->
  exists t', issuer_records_bounded t' (run_calls st calls).
Proof.
  revert st t. induction calls as [|c calls IH]; intros st t Hcalls Hmono Hb.
  - exists t. exact Hb.
  - inversion Hcalls as [|? ? [Hid Hmax] Hrest]; subst.
    destruct Hmono as [Hle Hmono].
    apply (IH _ (Global_latest_timestamp c) Hrest Hmono).
    apply (effect_bounded c st _ t); auto using program_effect.
Qed.

Lemma bounded_satisfy (t : N) (st : State) :
  issuer_records_bounded t st ->
  issuer_records_satisfy (fun r a => a <= r) st.
Proof.
  intros Hb k v Hk Hv.
  destruct (Hb k v Hk Hv) as (a & r & Ha & Hr & _ & Hor). eauto.
Qed.

Lemma created_has_no_boxes (creation : Ctx) (k : bytes) :
  Txn_application_id creation = 0 ->
  App_box_get k (registry_after creation []) = None.
Proof.
  intros Hid. unfold registry_after, IssuerRegistry.program. rewrite Hid. reflexivity.
Qed.

(** C2, as the code has it.  Along every history of the registry -- one
    creation call, then any calls to the application, with [uint64]
    timestamps that never decrease -- every issuer record (a box whose key
    carries neither the ["meta:"] nor the ["cred:"] prefix) has readable
    timestamps with [revoked_at = 0] or [authorized_at <= revoked_at].
    Equality is reachable: a record can be revoked at the timestamp that
    authorized it. *)
Theorem revocation_not_before_authorization (creation : Ctx) (calls : list Ctx) :
  history creation calls ->
  issuer_records_satisfy (fun r a => a <= r) (registry_after creation calls).
Proof.
  intros (Hid & Hcalls & Hmono).
  destruct (run_calls_bounded calls (registry_after creation [])
              (Global_latest_timestamp creation) Hcalls Hmono) as [t' Hb].
  - intros k v _ Hv. rewrite (created_has_no_boxes creation k Hid) in Hv.
    discriminate Hv.
  - exact (bounded_satisfy t' _ Hb).
Qed.

Lemma sample_history_same_block :
  history (Sample.create Sample.admin_address 5) Sample.same_block_calls.
Proof.
  split; [reflexivity|]. split.
  - repeat constructor; discriminate.
  - cbn. lia.
Qed.

Lemma sample_x_plain : plain_key Sample.issuer_x.
Proof. split; intros [k Hk]; discriminate Hk. Qed.

Lemma revocation_not_before_authorization_witness :
  issuer_records_satisfy (fun r a => a <= r)
    (registry_after (Sample.create Sample.admin_address 5)
       Sample.same_block_calls).
Proof.
  apply (revocation_not_before_authorization
           (Sample.create Sample.admin_address 5) Sample.same_block_calls).
  split; [reflexivity|]. split.
  - repeat constructor; discriminate.
  - cbn. lia.
Defined.

(** The strict form fails: add X and revoke X under the same timestamp 5;
    the record of X then has [authorized_at = revoked_at = 5]. *)
Lemma strict_revocation_order_fails :
  ~ (forall creation calls,
       history creation calls ->
       issuer_records_satisfy (fun r a => a < r)
         (registry_after creation calls)).
Proof.
  intros Hclaim.
  pose proof (Hclaim _ _ sample_history_same_block Sample.issuer_x) as H.
  destruct (App_box_get Sample.issuer_x
              (registry_after (Sample.create Sample.admin_address 5)
                 Sample.same_block_calls)) as [v|] eqn:Hv;
    [|vm_compute in Hv; discriminate Hv].
  destruct (H v sample_x_plain eq_refl) as (a & r & Ha & Hr & Hor).
  vm_compute in Hv. injection Hv as <-.
  vm_compute in Ha, Hr.
  injection Ha as <-. injection Hr as <-. lia.
Qed.

(** Why the prefix matters: the metadata box of X lives in the same
    namespace, and read with the issuer offsets its bytes 8..16 are the
    start of the name.  Named with the eight bytes of the number 1 and
    stamped at time 5, it would read "authorized at 5, revoked at 1". *)
Lemma metadata_box_read_as_issuer_record :
  let st :=
    registry_after (Sample.create Sample.admin_address 5)
      [Sample.call_raw Sample.admin_address 5
         [Bytes "add_issuer"; Sample.issuer_x; Itob 1; Bytes "Records Office";
          Bytes "https://gov.example"; Bytes "government"; Bytes "US"]] in
  exists v,
    App_box_get (Concat [Bytes "meta:"; Sample.issuer_x]) st = Some v
    /\ authorized_at v = Ok 5 /\ revoked_at v = Ok 1.
Proof. eexists. vm_compute. repeat split. Qed.

(** ** [add_issuer] on an address that already has a box *)

Lemma add_issuer_existing_Err (ctx : Ctx) (st : State) (address old : bytes) :
  Txn_application_args ctx !! 1%nat = Some address ->
  App_box_get address st = Some old ->
  exists e, IssuerRegistry.add_issuer ctx st = Err e.
Proof.
  intros Harg Hold.
  destruct (IssuerRegistry.add_issuer ctx st) as [[st' log]|e] eqn:H; [|eauto].
  apply add_issuer_Ok in H as (address' & meta & n & Haddr & Hfree & _).
  rewrite (application_arg_lookup _ _ _ Harg) in Haddr.
  injection Haddr as <-. congruence.
Qed.

(** C4, as the code has it.  [add_issuer] on an address that already has a
    box always fails and writes nothing.  The metadata and the caller are
    checked before the address, so the failure is [AlreadyExists] when the
    metadata meets both rules and the caller is the admin or an active
    issuer. *)
Theorem add_issuer_existing_fails (ctx : Ctx) (st : State) (address old : bytes) :
  Txn_application_args ctx !! 1%nat = Some address ->
  App_box_get address st = Some old ->
  exists e,
    fails_unchanged e st (IssuerRegistry.add_issuer ctx st)
    /\ (forall name url,
          Txn_application_args ctx !! 2%nat = Some name ->
          Txn_application_args ctx !! 4%nat = Some url ->
          name_rule name -> url_rule url -> caller_authorized ctx st ->
          e = AlreadyExists).
Proof.
  intros Harg Hold.
  destruct (add_issuer_existing_Err ctx st address old Harg Hold) as [e He].
  exists e. split; [now apply fails_unchanged_intro|].
  intros name url Hn Hu Hname Hurl Hauth.
  destruct (caller_authorized_check ctx st Hauth) as (adm & act & Hadm & Hact & Hor).
  revert He. unfold IssuerRegistry.add_issuer.
  rewrite (validate_name_rule ctx name Hn), (bool_decide_eq_true_2 _ Hname). run.
  rewrite (validate_url_rule ctx url Hu) by (destruct Hurl; lia).
  rewrite (bool_decide_eq_true_2 _ Hurl). run.
  rewrite Hadm, Hact. run. rewrite Hor. run.
  rewrite (application_arg_lookup _ _ _ Harg). run.
  rewrite Hold. run. congruence.
Qed.

Lemma add_issuer_existing_fails_witness :
  exists e,
    fails_unchanged e Sample.with_x
      (IssuerRegistry.add_issuer
         (Sample.add Sample.admin_address 6 Sample.x "Gov Office"
            "https://gov.example") Sample.with_x)
    /\ e = AlreadyExists.
Proof.
  destruct (add_issuer_existing_fails
              (Sample.add Sample.admin_address 6 Sample.x "Gov Office"
                 "https://gov.example") Sample.with_x Sample.issuer_x
              (IssuerRegistry.issuer_box_value (Itob 5) (Itob 0) (Itob 0)
                 Sample.admin_address))
    as (e & Hfail & Hwhich).
  - reflexivity.
  - vm_compute. reflexivity.
  - exists e. split; [exact Hfail|].
    apply (Hwhich (Bytes "Gov Office") (Bytes "https://gov.example")).
    + reflexivity.
    + reflexivity.
    + unfold name_rule. vm_compute. lia.
    + unfold url_rule. split; [right; vm_compute; reflexivity | vm_compute; lia].
    + exists Sample.admin_address. split; [vm_compute; reflexivity|]. left.
      split; [reflexivity|]. intros v Hv. vm_compute in Hv. discriminate Hv.
Defined.

(** The failure is not always [AlreadyExists]: with a two-character name
    the name rule fails first. *)
Lemma add_issuer_existing_not_always_AlreadyExists :
  ~ (forall ctx st address,
       Txn_application_args ctx !! 1%nat = Some address ->
       is_Some (App_box_get address st) ->
       IssuerRegistry.add_issuer ctx st = Err AlreadyExists).
Proof.
  intros Hclaim.
  specialize (Hclaim
    (Sample.add Sample.admin_address 6 Sample.x "ab" "https://gov.example")
    Sample.with_x Sample.issuer_x eq_refl).
  assert (Hsome : is_Some (App_box_get Sample.issuer_x Sample.with_x))
    by (vm_compute; eauto).
  specialize (Hclaim Hsome). vm_compute in Hclaim. discriminate Hclaim.
Qed.

(** The Beaker [add_issuer] has no such check: the admin adding X a second
    time succeeds, re-stamps the record and counts X twice. *)
Lemma beaker_add_issuer_overwrites :
  exists st',
    IssuerRegistryBeaker.add_issuer
      (Sample.call Sample.admin_address 7 []) Sample.issuer_x
      (Bytes "Gov Office") (Bytes "Government Records Office")
      (Bytes "https://gov.example") (Bytes "government") (Bytes "US")
      Sample.with_x = Ok (st', [])
    /\ (authorized_at <$> App_box_get Sample.issuer_x Sample.with_x)
       = Some (Ok 5)
    /\ (authorized_at <$> App_box_get Sample.issuer_x st') = Some (Ok 7)
    /\ issuer_count Sample.with_x = Ok 1
    /\ issuer_count st' = Ok 2.
Proof. eexists. vm_compute. repeat split. Qed.

(** ** Revoking and reinstating a well-formed record *)

Section RevokeReinstate.

Variables (ctx : Ctx) (st : State) (address old : bytes).
Hypothesis Hadmin : admin st = Ok (Txn_sender ctx).
Hypothesis Haddress : Txn_application_args ctx !! 1%nat = Some address.
Hypothesis Hold : App_box_get address st = Some old.
Hypothesis Hlen : length old = 56%nat.

Lemma issuer_box_fields_of_old :
  exists a vb,
    Extract old 0 8 = Ok a /\ Extract old 24 32 = Ok vb
    /\ length a = 8%nat /\ length vb = 32%nat.
Proof.
  exists (take 8 (drop 0 old)), (take 32 (drop 24 old)).
  split; [apply Extract_Ok; lia|]. split; [apply Extract_Ok; lia|].
  rewrite !length_take, !length_drop. lia.
Qed.

Lemma revoke_issuer_succeeds (flag_arg : bytes) (flag : N) :
  Txn_application_args ctx !! 2%nat = Some flag_arg ->
  Btoi flag_arg = Ok flag ->
  exists a vb,
    Extract old 0 8 = Ok a /\ Extract old 24 32 = Ok vb
    /\ IssuerRegistry.revoke_issuer ctx st
       = Ok (store_box address
               (IssuerRegistry.issuer_box_value a
                  (Itob (Global_latest_timestamp ctx)) (Itob flag) vb) st, []).
Proof.
  intros Hflag Hbtoi.
  destruct issuer_box_fields_of_old as (a & vb & Ha & Hvb & Hla & Hlvb).
  exists a, vb. repeat split; try assumption.
  unfold IssuerRegistry.revoke_issuer.
  rewrite (is_admin_true ctx st _ Hadmin eq_refl). run.
  rewrite (application_arg_lookup _ _ _ Haddress). run.
  rewrite Hold. run. rewrite Ha. run.
  rewrite (application_arg_lookup _ _ _ Hflag). run.
  rewrite Hbtoi. run. rewrite Hvb. run.
  rewrite (App_box_put_same _ _ _ old Hold); [reflexivity|].
  rewrite length_issuer_box; auto using length_Itob.
Qed.

Lemma reinstate_issuer_succeeds :
  exists vb,
    Extract old 24 32 = Ok vb
    /\ IssuerRegistry.reinstate_issuer ctx st
       = Ok (store_box address
               (IssuerRegistry.issuer_box_value
                  (Itob (Global_latest_timestamp ctx)) (Itob 0) (Itob 0) vb)
               st, []).
Proof.
  destruct issuer_box_fields_of_old as (a & vb & Ha & Hvb & Hla & Hlvb).
  exists vb. split; [assumption|].
  unfold IssuerRegistry.reinstate_issuer.
  rewrite (is_admin_true ctx st _ Hadmin eq_refl). run.
  rewrite (application_arg_lookup _ _ _ Haddress). run.
  rewrite Hold. run. rewrite Hvb. run.
  rewrite (App_box_put_same _ _ _ old Hold); [reflexivity|].
  rewrite length_issuer_box; auto using length_Itob.
Qed.

End RevokeReinstate.

(** C10.  [reinstate_issuer] does not look at [revoked_at]: called by the
    admin on a record that is active, it succeeds and the record's
    [authorized_at] becomes the time of the call, whatever it was before;
    [revoked_at] stays 0 and [vouched_by] is kept. *)
Theorem reinstate_active_resets_authorized_at
    (ctx : Ctx) (st : State) (address old : bytes) :
  admin st = Ok (Txn_sender ctx) ->
  Txn_application_args ctx !! 1%nat = Some address ->
  App_box_get address st = Some old ->
  length old = 56%nat ->
  revoked_at old = Ok 0 ->
  Global_latest_timestamp ctx < uint64_max ->
  exists st' v,
    IssuerRegistry.reinstate_issuer ctx st = Ok (st', [])
    /\ App_box_get address st' = Some v
    /\ authorized_at v = Ok (Global_latest_timestamp ctx)
    /\ revoked_at v = Ok 0
    /\ vouched_by v = vouched_by old.
Proof.
  intros Hadmin Haddress Hold Hlen _ Htime.
  destruct (reinstate_issuer_succeeds ctx st address old Hadmin Haddress Hold Hlen)
    as (vb & Hvb & Hrun).
  destruct (Extract_length _ _ _ _ Hvb) as [Hlvb _].
  eexists _, _. split; [exact Hrun|]. split; [apply box_get_store_eq|].
  destruct (fresh_issuer_box_fields (Global_latest_timestamp ctx) vb Htime Hlvb)
    as (Ha & Hr & _ & Hv).
  repeat split; try assumption.
  unfold vouched_by at 2. now rewrite Hvb.
Qed.

Lemma reinstate_active_resets_authorized_at_witness :
  (authorized_at <$> App_box_get Sample.issuer_x Sample.with_x) = Some (Ok 5)
  /\ exists st' v,
       IssuerRegistry.reinstate_issuer
         (Sample.reinstate Sample.admin_address 9 Sample.x) Sample.with_x
       = Ok (st', [])
       /\ App_box_get Sample.issuer_x st' = Some v
       /\ authorized_at v = Ok 9
       /\ revoked_at v = Ok 0
       /\ vouched_by v
          = vouched_by (IssuerRegistry.issuer_box_value (Itob 5) (Itob 0)
                          (Itob 0) Sample.admin_address).
Proof.
  split; [vm_compute; reflexivity|].
  apply (reinstate_active_resets_authorized_at
           (Sample.reinstate Sample.admin_address 9 Sample.x) Sample.with_x
           Sample.issuer_x
           (IssuerRegistry.issuer_box_value (Itob 5) (Itob 0) (Itob 0)
              Sample.admin_address)).
  - vm_compute. reflexivity.
  - reflexivity.
  - vm_compute. reflexivity.
  - reflexivity.
  - vm_compute. reflexivity.
  - reflexivity.
Defined.

(** C5.  For an admin caller and an address holding a well-formed
    (56-byte) issuer record, [revoke_issuer] followed by [reinstate_issuer]
    both succeed, and the record then has [revoked_at = 0] and
    [revoke_all_prior = 0]; its [vouched_by] is the original one. *)
Theorem revoke_then_reinstate (c1 c2 : Ctx) (st : State)
    (address old flag_arg : bytes) :
  admin st = Ok (Txn_sender c1) ->
  Txn_sender c2 = Txn_sender c1 ->
  Txn_application_args c1 !! 1%nat = Some address ->
  Txn_application_args c1 !! 2%nat = Some flag_arg ->
  (length flag_arg <= 8)%nat ->
  Txn_application_args c2 !! 1%nat = Some address ->
  Global_latest_timestamp c2 < uint64_max ->
  App_box_get address st = Some old ->
  length old = 56%nat ->
  exists st1 st2 v,
    IssuerRegistry.revoke_issuer c1 st = Ok (st1, [])
    /\ IssuerRegistry.reinstate_issuer c2 st1 = Ok (st2, [])
    /\ App_box_get address st2 = Some v
    /\ revoked_at v = Ok 0
    /\ revoke_all_prior v = Ok 0
    /\ vouched_by v = vouched_by old.
Proof.
  intros Hadmin Hsender Ha1 Hflag Hflen Ha2 Htime Hold Hlen.
  destruct (Btoi_short flag_arg Hflen) as [flag Hbtoi].
  destruct (revoke_issuer_succeeds c1 st address old Hadmin Ha1 Hold Hlen
              flag_arg flag Hflag Hbtoi) as (a & vb & Hxa & Hxvb & Hrun1).
  destruct (Extract_length _ _ _ _ Hxa) as [Hla _].
  destruct (Extract_length _ _ _ _ Hxvb) as [Hlvb _].
  set (mid := IssuerRegistry.issuer_box_value a
                (Itob (Global_latest_timestamp c1)) (Itob flag) vb) in *.
  assert (Hmid_len : length mid = 56%nat)
    by (apply length_issuer_box; auto using length_Itob).
  assert (Hmid_vb : vouched_by mid = Ok vb)
    by (apply vouched_by_issuer_box; auto using length_Itob).
  destruct (reinstate_issuer_succeeds c2 (store_box address mid st) address mid)
    as (vb' & Hxvb' & Hrun2); auto using box_get_store_eq.
  { unfold admin in *. rewrite globalGet_store_box. now rewrite Hsender. }
  unfold vouched_by in Hmid_vb. rewrite Hmid_vb in Hxvb'. injection Hxvb' as <-.
  eexists _, _, _. split; [exact Hrun1|]. split; [exact Hrun2|].
  split; [apply box_get_store_eq|].
  destruct (fresh_issuer_box_fields (Global_latest_timestamp c2) vb Htime Hlvb)
    as (_ & Hr & Hf & Hv).
  repeat split; try assumption.
  unfold vouched_by at 2. now rewrite Hxvb.
Qed.

Lemma revoke_then_reinstate_witness :
  exists st1 st2 v,
    IssuerRegistry.revoke_issuer
      (Sample.revoke Sample.admin_address 9 Sample.issuer_x 1) Sample.with_x
    = Ok (st1, [])
    /\ IssuerRegistry.reinstate_issuer
         (Sample.reinstate Sample.admin_address 9 Sample.x) st1
       = Ok (st2, [])
    /\ App_box_get Sample.issuer_x st2 = Some v
    /\ revoked_at v = Ok 0
    /\ revoke_all_prior v = Ok 0
    /\ vouched_by v
       = vouched_by (IssuerRegistry.issuer_box_value (Itob 5) (Itob 0)
                       (Itob 0) Sample.admin_address).
Proof.
  apply (revoke_then_reinstate
           (Sample.revoke Sample.admin_address 9 Sample.issuer_x 1)
           (Sample.reinstate Sample.admin_address 9 Sample.x)
           Sample.with_x Sample.issuer_x
           (IssuerRegistry.issuer_box_value (Itob 5) (Itob 0) (Itob 0)
              Sample.admin_address) (Itob 1)).
  - vm_compute. reflexivity.
  - reflexivity.
  - reflexivity.
  - reflexivity.
  - vm_compute. lia.
  - reflexivity.
  - reflexivity.
  - vm_compute. reflexivity.
  - reflexivity.
Defined.

(** ** [vouched_by] is written at creation only *)




(** ** [issuer_count] *)

Lemma App_box_put_globals (k v : bytes) (st st' : State) :
  App_box_put k v st = Ok st' -> globals st' = globals st.
Proof. intros H. apply App_box_put_Ok in H. now subst. Qed.

Lemma effect_issuer_count (c : Ctx) (st st' : State) (n : N) :
  effect c st st' ->
  issuer_count st = Ok n ->
  issuer_count st' = Ok n \/ issuer_count st' = Ok (n + 1).
Proof.
  intros Heff Hn.
  destruct Heff as [| address meta m _ Hm _ | | | | ]; try (left; exact Hn).
  right. rewrite Hn in Hm. injection Hm as <-.
  unfold issuer_count. now rewrite globalGet_globalPut_eq.
Qed.

Lemma run_calls_issuer_count (calls : list Ctx) (st : State) (n : N) :
  Forall (fun c => Txn_application_id c <> 0) calls ->
  issuer_count st = Ok n ->
  exists m, issuer_count (run_calls st calls) = Ok m /\ n <= m.
Proof.
  revert st n. induction calls as [|c calls IH]; intros st n Hcalls Hn.
  - exists n. split; [exact Hn | lia].
  - inversion Hcalls as [|? ? Hid Hrest]; subst.
    destruct (effect_issuer_count c st _ n (program_effect c st Hid) Hn)
      as [Hsame | Hnext].
    + exact (IH _ n Hrest Hsame).
    + destruct (IH _ (n + 1) Hrest Hnext) as (m & Hm & Hle).
      exists m. split; [exact Hm | lia].
Qed.

Lemma beaker_add_issuer_count (ctx : Ctx) (address n f u o j : bytes)
    (st st' : State) (log : list bytes) :
  IssuerRegistryBeaker.add_issuer ctx address n f u o j st = Ok (st', log) ->
  exists m, issuer_count st = Ok m /\ issuer_count st' = Ok (m + 1).
Proof.
  unfold IssuerRegistryBeaker.add_issuer. intros H.
  peel H as adm Hadm. peel_assert H as Hadm_ok.
  peel H as st1 Hput1. peel H as st2 Hput2.
  peel H as m Hcount. peel H as m' Hadd. injection H as <- <-.
  apply App_box_put_Ok in Hput1, Hput2. subst st1 st2.
  apply as_uint_Ok in Hcount. rewrite !globalGet_store_box in Hcount.
  apply Add_Ok in Hadd as [-> _].
  exists m. unfold issuer_count.
  now rewrite Hcount, globalGet_globalPut_eq.
Qed.

Lemma beaker_revoke_issuer_globals (ctx : Ctx) (address : bytes) (st : State) :
  globals (commit st (IssuerRegistryBeaker.revoke_issuer ctx address st))
  = globals st.
Proof.
  destruct (IssuerRegistryBeaker.revoke_issuer ctx address st)
    as [[st' log]|e] eqn:H; [|reflexivity].
  unfold IssuerRegistryBeaker.revoke_issuer in H.
  peel H as adm Hadm. peel_assert H as Hadm_ok. peel_assert H as Hexists.
  peel H as a Ha. peel H as f Hf. peel H as vb Hvb. peel H as st1 Hput.
  injection H as <- <-. exact (App_box_put_globals _ _ _ _ Hput).
Qed.

Lemma beaker_reinstate_issuer_globals (ctx : Ctx) (address : bytes) (st : State) :
  globals (commit st (IssuerRegistryBeaker.reinstate_issuer ctx address st))
  = globals st.
Proof.
  destruct (IssuerRegistryBeaker.reinstate_issuer ctx address st)
    as [[st' log]|e] eqn:H; [|reflexivity].
  unfold IssuerRegistryBeaker.reinstate_issuer in H.
  peel H as adm Hadm. peel_assert H as Hadm_ok. peel_assert H as Hexists.
  peel H as a Ha. peel H as f Hf. peel H as vb Hvb. peel H as st1 Hput.
  injection H as <- <-. exact (App_box_put_globals _ _ _ _ Hput).
Qed.

Lemma revoke_issuer_globals (ctx : Ctx) (st : State) :
  globals (commit st (IssuerRegistry.revoke_issuer ctx st)) = globals st.
Proof.
  destruct (IssuerRegistry.revoke_issuer ctx st) as [[st' log]|e] eqn:H;
    [|reflexivity].
  now apply revoke_issuer_Ok in H as (? & ? & ? & ? & ? & _ & _ & _ & _ & ->).
Qed.

Lemma reinstate_issuer_globals (ctx : Ctx) (st : State) :
  globals (commit st (IssuerRegistry.reinstate_issuer ctx st)) = globals st.
Proof.
  destruct (IssuerRegistry.reinstate_issuer ctx st) as [[st' log]|e] eqn:H;
    [|reflexivity].
  now apply reinstate_issuer_Ok in H as (? & ? & ? & _ & _ & _ & ->).
Qed.

Lemma issuer_count_globals (st st' : State) :
  globals st' = globals st -> issuer_count st' = issuer_count st.
Proof. unfold issuer_count, App_globalGet. now intros ->. Qed.

(** The Beaker [add_issuer] writes the same three things whenever it
    succeeds (there only the admin can make it succeed). *)
Lemma beaker_add_issuer_creates_records (ctx : Ctx)
    (address name full_name url organization_type jurisdiction : bytes)
    (st st' : State) (log : list bytes) :
  IssuerRegistryBeaker.add_issuer ctx address name full_name url
    organization_type jurisdiction st = Ok (st', log) ->
  length (Txn_sender ctx) = 32%nat ->
  Global_latest_timestamp ctx < uint64_max ->
  admin st = Ok (Txn_sender ctx)
  /\ (exists v,
        App_box_get address st' = Some v
        /\ authorized_at v = Ok (Global_latest_timestamp ctx)
        /\ revoked_at v = Ok 0
        /\ revoke_all_prior v = Ok 0
        /\ vouched_by v = Ok (Txn_sender ctx))
  /\ App_box_get (Concat [Bytes "meta:"; address]) st'
     = Some (Concat [Itob (Global_latest_timestamp ctx); name; full_name; url;
                     organization_type; jurisdiction])
  /\ (exists n, issuer_count st = Ok n /\ issuer_count st' = Ok (n + 1)).
Proof.
  intros H Hsender Htime.
  pose proof (beaker_add_issuer_count _ _ _ _ _ _ _ _ _ _ H) as Hcount.
  unfold IssuerRegistryBeaker.add_issuer in H.
  peel H as adm Hadm. peel_assert H as Hadm_ok. subst adm.
  peel H as st1 Hput1. peel H as st2 Hput2.
  peel H as m Hm. peel H as m' Hadd. injection H as <- <-.
  apply App_box_put_Ok in Hput1, Hput2. subst st1 st2.
  assert (Hkey : Concat [Bytes "meta:"; address] <> address)
    by now apply prefixed_key_ne.
  split; [|split; [|split; [|exact Hcount]]].
  - rewrite beaker_is_admin in Hadm. unfold IssuerRegistry.is_admin in Hadm.
    unfold admin. destruct (as_bytes _) as [a|]; [|discriminate Hadm].
    cbn [bind] in Hadm. injection Hadm as Hadm.
    apply bool_decide_eq_true_1 in Hadm. now rewrite Hadm.
  - eexists. split.
    + rewrite box_get_globalPut, box_get_store_ne, box_get_store_eq; auto.
    + now apply fresh_issuer_box_fields.
  - now rewrite box_get_globalPut, box_get_store_eq.
Qed.

(** C8.  In both contracts a successful [add_issuer] raises [issuer_count]
    by exactly one, and [revoke_issuer] and [reinstate_issuer] leave it as
    it is, whether they succeed or fail.  Along any sequence of calls to
    the application the counter never decreases. *)
Theorem issuer_count_monotone :
  (forall ctx st st' log,
     IssuerRegistry.add_issuer ctx st = Ok (st', log) ->
     exists n, issuer_count st = Ok n /\ issuer_count st' = Ok (n + 1))
  /\ (forall ctx address n f u o j st st' log,
        IssuerRegistryBeaker.add_issuer ctx address n f u o j st
        = Ok (st', log) ->
        exists m, issuer_count st = Ok m /\ issuer_count st' = Ok (m + 1))
  /\ (forall ctx st,
        issuer_count (commit st (IssuerRegistry.revoke_issuer ctx st))
        = issuer_count st
        /\ issuer_count (commit st (IssuerRegistry.reinstate_issuer ctx st))
           = issuer_count st)
  /\ (forall ctx address st,
        issuer_count
          (commit st (IssuerRegistryBeaker.revoke_issuer ctx address st))
        = issuer_count st
        /\ issuer_count
             (commit st (IssuerRegistryBeaker.reinstate_issuer ctx address st))
           = issuer_count st)
  /\ (forall calls st n,
        Forall (fun c => Txn_application_id c <> 0) calls ->
        issuer_count st = Ok n ->
        exists m, issuer_count (run_calls st calls) = Ok m /\ n <= m).
Proof.
  split; [|split; [|split; [|split]]].
  - intros ctx st st' log H.
    apply add_issuer_Ok in H as (address & meta & n & _ & _ & _ & Hn & _ & ->).
    exists n. split; [exact Hn|].
    unfold issuer_count. now rewrite globalGet_globalPut_eq.
  - intros. eapply beaker_add_issuer_count; eassumption.
  - intros ctx st. split; apply issuer_count_globals;
      [apply revoke_issuer_globals | apply reinstate_issuer_globals].
  - intros ctx address st. split; apply issuer_count_globals;
      [apply beaker_revoke_issuer_globals | apply beaker_reinstate_issuer_globals].
  - exact run_calls_issuer_count.
Qed.

Lemma issuer_count_monotone_witness :
  issuer_count Sample.created = Ok 0
  /\ issuer_count Sample.with_x = Ok 1
  /\ issuer_count Sample.with_x_revoked = Ok 1
  /\ exists m,
       issuer_count
         (run_calls Sample.created
            [Sample.add Sample.admin_address 5 Sample.x "Gov Office"
               "https://gov.example";
             Sample.revoke Sample.admin_address 9 Sample.issuer_x 1;
             Sample.reinstate Sample.admin_address 9 Sample.x;
             Sample.add Sample.issuer_x 9 Sample.y "Gov Office"
               "https://gov.example"]) = Ok m
       /\ 0 <= m.
Proof.
  split; [vm_compute; reflexivity|].
  split; [vm_compute; reflexivity|].
  split; [vm_compute; reflexivity|].
  destruct issuer_count_monotone as (_ & _ & _ & _ & Hseq).
  apply Hseq.
  - repeat constructor; discriminate.
  - vm_compute. reflexivity.
Defined.

(** ** Queries *)

(** C6, as the code has it.  No query changes the state, in either
    contract.  In [issuer-registry.py] a query logs the box when it exists
    (a box of more than 1024 bytes cannot be logged and fails the call) and
    [Reject()]s the call when it does not.  The Beaker queries are approved
    whether the box exists or not. *)
Theorem query_results (ctx : Ctx) (st : State) (x : bytes) :
  Txn_application_args ctx !! 1%nat = Some x ->
  let logged (k : bytes) : Outcome :=
    match App_box_get k st with
    | Some v =>
        if (length v <=? 1024)%nat then Ok (st, [v]) else Err Panic
    | None => Err Rejected
    end in
  (IssuerRegistry.query_issuer ctx st = logged x
   /\ IssuerRegistry.query_credential ctx st
      = logged (Concat [Bytes "cred:"; x])
   /\ IssuerRegistry.query_metadata ctx st
      = logged (Concat [Bytes "meta:"; x]))
  /\ ((exists log, IssuerRegistryBeaker.query_issuer ctx x st = Ok (st, log))
      /\ (exists log,
            IssuerRegistryBeaker.query_credential ctx x st = Ok (st, log))
      /\ (exists log,
            IssuerRegistryBeaker.query_metadata ctx x st = Ok (st, log))).
Proof.
  intros Hx logged. split.
  - unfold IssuerRegistry.query_issuer, IssuerRegistry.query_credential,
      IssuerRegistry.query_metadata, IssuerRegistry.log_box, logged, Log,
      max_log_size.
    rewrite (application_arg_lookup _ _ _ Hx). run.
    repeat split;
      match goal with
      | |- context [App_box_get ?k st] =>
          destruct (App_box_get k st) as [v|]; [|reflexivity];
          now destruct (length v <=? 1024)%nat
      end.
  - unfold IssuerRegistryBeaker.query_issuer,
      IssuerRegistryBeaker.query_credential,
      IssuerRegistryBeaker.query_metadata, IssuerRegistryBeaker.read_box.
    repeat split; eexists; reflexivity.
Qed.

Lemma query_results_witness :
  IssuerRegistry.query_issuer
    (Sample.query 9 "query_issuer" Sample.x) Sample.with_x
  = Ok (Sample.with_x,
        [IssuerRegistry.issuer_box_value (Itob 5) (Itob 0) (Itob 0)
           Sample.admin_address])
  /\ IssuerRegistry.query_issuer
       (Sample.query 9 "query_issuer" Sample.y) Sample.with_x
     = Err Rejected
  /\ exists log,
       IssuerRegistryBeaker.query_issuer
         (Sample.query 9 "query_issuer" Sample.y) Sample.issuer_y
         Sample.with_x
       = Ok (Sample.with_x, log).
Proof.
  destruct (query_results (Sample.query 9 "query_issuer" Sample.x)
              Sample.with_x Sample.issuer_x eq_refl) as [(Hx & _) _].
  destruct (query_results (Sample.query 9 "query_issuer" Sample.y)
              Sample.with_x Sample.issuer_y eq_refl) as [(Hy & _) (Hb & _)].
  split; [|split].
  - rewrite Hx. vm_compute. reflexivity.
  - rewrite Hy. vm_compute. reflexivity.
  - exact Hb.
Defined.

(** What the Beaker queries hand back: nothing.  [output] is set, then
    [Approve()] ends the call before the value is logged, so a record that
    exists and one that does not give the same outcome. *)
Lemma beaker_queries_log_nothing (ctx : Ctx) (st : State) (x : bytes) :
  IssuerRegistryBeaker.query_issuer ctx x st = Ok (st, [])
  /\ IssuerRegistryBeaker.query_credential ctx x st = Ok (st, [])
  /\ IssuerRegistryBeaker.query_metadata ctx x st = Ok (st, []).
Proof. repeat split. Qed.

(** A query for an address without a record is rejected by
    [issuer-registry.py], so "queries never fail the caller" does not hold
    there. *)
Lemma query_absent_is_rejected :
  ~ (forall ctx st,
       exists st' log, IssuerRegistry.query_issuer ctx st = Ok (st', log)).
Proof.
  intros Hclaim.
  destruct (Hclaim (Sample.query 9 "query_issuer" Sample.y) Sample.with_x)
    as (st' & log & H).
  vm_compute in H. discriminate H.
Qed.

(** ** Validation failures *)

Section ValidationFailures.

Variables (ctx : Ctx) (st : State) (name url : bytes).
Hypothesis Hname : Txn_application_args ctx !! 2%nat = Some name.
Hypothesis Hurl : Txn_application_args ctx !! 4%nat = Some url.

Lemma add_issuer_validation_Err (e : Error) :
  validation_checks ctx = Err e -> IssuerRegistry.add_issuer ctx st = Err e.
Proof.
  unfold validation_checks, IssuerRegistry.add_issuer.
  destruct (IssuerRegistry.validate_name ctx) as [[|]|]; run;
    try (now intros [= ->]).
  destruct (IssuerRegistry.validate_url ctx) as [[|]|]; run;
    try (now intros [= ->]).
Qed.

Lemma update_metadata_validation_Err (e : Error) :
  admin st = Ok (Txn_sender ctx) ->
  validation_checks ctx = Err e -> IssuerRegistry.update_metadata ctx st = Err e.
Proof.
  intros Hadmin. unfold validation_checks, IssuerRegistry.update_metadata.
  rewrite (is_admin_true ctx st _ Hadmin eq_refl). run.
  destruct (IssuerRegistry.validate_name ctx) as [[|]|]; run;
    try (now intros [= ->]).
  destruct (IssuerRegistry.validate_url ctx) as [[|]|]; run;
    try (now intros [= ->]).
Qed.

Lemma validation_checks_name :
  ~ name_rule name -> validation_checks ctx = Err (ValidationFailed NameLength).
Proof.
  intros Hbad. unfold validation_checks.
  rewrite (validate_name_rule ctx name Hname), (bool_decide_eq_false_2 _ Hbad).
  reflexivity.
Qed.

Lemma validation_checks_url :
  name_rule name -> (8 <= length url)%nat -> ~ url_rule url ->
  validation_checks ctx = Err (ValidationFailed UrlShape).
Proof.
  intros Hgood Hlen Hbad. unfold validation_checks.
  rewrite (validate_name_rule ctx name Hname), (bool_decide_eq_true_2 _ Hgood).
  run. rewrite (validate_url_rule ctx url Hurl Hlen), (bool_decide_eq_false_2 _ Hbad).
  reflexivity.
Qed.

Lemma validation_checks_short_url :
  name_rule name -> (length url < 8)%nat -> validation_checks ctx = Err Panic.
Proof.
  intros Hgood Hlen. unfold validation_checks.
  rewrite (validate_name_rule ctx name Hname), (bool_decide_eq_true_2 _ Hgood).
  run. now rewrite (validate_url_short ctx url Hurl Hlen).
Qed.

End ValidationFailures.

(** C9, as the code has it.  Metadata that breaks a Validation Rule makes
    [add_issuer] fail -- and [update_metadata] too when the caller is the
    admin -- with no write to the store.  The failure names the first rule
    broken: the name rule when the name length is outside [3, 64];
    otherwise the URL rule, provided the URL has at least 8 bytes.  On a
    shorter URL the prefix comparison itself aborts the call.  Both
    predicates are functions of the call arguments alone. *)
Theorem invalid_metadata_rejected (ctx : Ctx) (st : State) (name url : bytes) :
  Txn_application_args ctx !! 2%nat = Some name ->
  Txn_application_args ctx !! 4%nat = Some url ->
  ~ name_rule name \/ ~ url_rule url ->
  exists e,
    fails_unchanged e st (IssuerRegistry.add_issuer ctx st)
    /\ (admin st = Ok (Txn_sender ctx) ->
        fails_unchanged e st (IssuerRegistry.update_metadata ctx st))
    /\ (~ name_rule name -> e = ValidationFailed NameLength)
    /\ (name_rule name -> (8 <= length url)%nat ->
        e = ValidationFailed UrlShape)
    /\ (name_rule name -> (length url < 8)%nat -> e = Panic).
Proof.
  intros Hname Hurl Hbad.
  assert (Hchecks : exists e,
             validation_checks ctx = Err e
             /\ (~ name_rule name -> e = ValidationFailed NameLength)
             /\ (name_rule name -> (8 <= length url)%nat ->
                 e = ValidationFailed UrlShape)
             /\ (name_rule name -> (length url < 8)%nat -> e = Panic)).
  { destruct (decide (name_rule name)) as [Hgood|Hnbad].
    - destruct Hbad as [Hnbad|Hubad]; [contradiction|].
      destruct (Nat.le_gt_cases 8 (length url)) as [Hlen|Hlen].
      + exists (ValidationFailed UrlShape).
        split; [now apply (validation_checks_url ctx name url)|].
        repeat split; try reflexivity; intros; (contradiction || lia).
      + exists Panic.
        split; [now apply (validation_checks_short_url ctx name url)|].
        repeat split; try reflexivity; intros; (contradiction || lia).
    - exists (ValidationFailed NameLength).
      split; [now apply (validation_checks_name ctx name)|].
      repeat split; try reflexivity; intros; contradiction. }
  destruct Hchecks as (e & He & Hcases).
  exists e. split; [|split; [|exact Hcases]].
  - apply fails_unchanged_intro. now apply add_issuer_validation_Err.
  - intros Hadmin. apply fails_unchanged_intro.
    now apply update_metadata_validation_Err.
Qed.

Lemma invalid_metadata_rejected_witness :
  exists e,
    fails_unchanged e Sample.with_x
      (IssuerRegistry.add_issuer
         (Sample.add Sample.admin_address 9 Sample.y "ab" "https://gov.example")
         Sample.with_x)
    /\ fails_unchanged e Sample.with_x
         (IssuerRegistry.update_metadata
            (Sample.add Sample.admin_address 9 Sample.y "ab"
               "https://gov.example") Sample.with_x)
    /\ e = ValidationFailed NameLength.
Proof.
  destruct (invalid_metadata_rejected
              (Sample.add Sample.admin_address 9 Sample.y "ab"
                 "https://gov.example") Sample.with_x
              (Bytes "ab") (Bytes "https://gov.example"))
    as (e & Hadd & Hupdate & Hname & _).
  - reflexivity.
  - reflexivity.
  - left. unfold name_rule. vm_compute. lia.
  - exists e. split; [exact Hadd|]. split.
    + apply Hupdate. vm_compute. reflexivity.
    + apply Hname. unfold name_rule. vm_compute. lia.
Defined.

(** [update_metadata] checks the caller before the metadata: a caller
    other than the admin sending a two-character name is turned away as
    [Unauthorized], not for the name. *)
Lemma update_metadata_checks_admin_first :
  ~ (forall ctx st name,
       Txn_application_args ctx !! 2%nat = Some name ->
       ~ name_rule name ->
       exists r, IssuerRegistry.update_metadata ctx st
                 = Err (ValidationFailed r)).
Proof.
  intros Hclaim.
  destruct (Hclaim
              (Sample.update Sample.issuer_x 9 Sample.x "ab"
                 "https://gov.example") Sample.with_x (Bytes "ab") eq_refl)
    as [r Hr].
  - unfold name_rule. vm_compute. lia.
  - vm_compute in Hr. discriminate Hr.
Qed.

(** A seven-byte URL: the call fails inside [validate_url], before its
    [Assert] is reached. *)
Lemma short_url_aborts :
  IssuerRegistry.add_issuer
    (Sample.add Sample.admin_address 9 Sample.y "Gov Office" "ftp://x")
    Sample.with_x = Err Panic.
Proof. vm_compute. reflexivity. Qed.

(** * Further properties of the contracts *)

(** ** Creation and the admin *)

Lemma effect_admin (c : Ctx) (st st' : State) :
  effect c st st' -> admin st' = admin st.
Proof.
  intros Heff. destruct Heff; try reflexivity.
  unfold admin. rewrite globalGet_globalPut_ne; [reflexivity|].
  unfold Bytes. cbn. discriminate.
Qed.

Lemma run_calls_admin (calls : list Ctx) (st : State) :
  Forall (fun c => Txn_application_id c <> 0) calls ->
  admin (run_calls st calls) = admin st.
Proof.
  revert st. induction calls as [|c calls IH]; intros st Hcalls; [reflexivity|].
  inversion Hcalls as [|? ? Hid Hrest]; subst. cbn [run_calls foldl].
  fold (run_calls (commit st (IssuerRegistry.program c st)) calls).
  rewrite (IH _ Hrest). apply (effect_admin c). now apply program_effect.
Qed.

Lemma on_create_state (creation : Ctx) (st : State) :
  Txn_application_id creation = 0 ->
  IssuerRegistry.program creation st
  = Ok (App_globalPut (Bytes "issuer_count") (Uint 0)
          (App_globalPut (Bytes "admin") (Bstr (Txn_sender creation)) st), []).
Proof.
  intros Hid. unfold IssuerRegistry.program. rewrite Hid. reflexivity.
Qed.

Lemma application_stays_ids (a : bytes) (calls : list Ctx) :
  application_stays a calls ->
  Forall (fun c => Txn_application_id c <> 0) calls.
Proof.
  unfold application_stays. intros H.
  apply (Forall_impl _ _ _ H). now intros c [Hid _].
Qed.

(** X1.  The creation call, whatever its arguments, makes its sender the
    admin, sets [issuer_count] to 0 and stores no box; and as long as the
    application stays in place (the admin sends no delete or update call)
    no sequence of later calls, by anyone, changes the admin. *)
Theorem admin_fixed_at_creation (creation : Ctx) (calls : list Ctx) :
  Txn_application_id creation = 0 ->
  application_stays (Txn_sender creation) calls ->
  admin (registry_after creation []) = Ok (Txn_sender creation)
  /\ issuer_count (registry_after creation []) = Ok 0
  /\ boxes (registry_after creation []) = ∅
  /\ admin (registry_after creation calls) = Ok (Txn_sender creation).
Proof.
  intros Hid Hstays.
  pose proof (application_stays_ids _ _ Hstays) as Hcalls.
  assert (Hadmin : admin (registry_after creation []) = Ok (Txn_sender creation)).
  { unfold registry_after. rewrite (on_create_state creation _ Hid).
    cbn [commit run_calls foldl]. unfold admin.
    rewrite globalGet_globalPut_ne by (unfold Bytes; cbn; discriminate).
    now rewrite globalGet_globalPut_eq. }
  split; [exact Hadmin|]. split; [|split].
  - unfold registry_after. rewrite (on_create_state creation _ Hid).
    cbn [commit run_calls foldl]. unfold issuer_count.
    now rewrite globalGet_globalPut_eq.
  - unfold registry_after. rewrite (on_create_state creation _ Hid). reflexivity.
  - unfold registry_after in *. rewrite (run_calls_admin calls _ Hcalls).
    exact Hadmin.
Qed.

Lemma admin_fixed_at_creation_witness :
  admin (registry_after (Sample.create Sample.admin_address 5) [])
  = Ok Sample.admin_address
  /\ issuer_count (registry_after (Sample.create Sample.admin_address 5) [])
     = Ok 0
  /\ boxes (registry_after (Sample.create Sample.admin_address 5) []) = ∅
  /\ admin (registry_after (Sample.create Sample.admin_address 5)
              Sample.same_block_calls) = Ok Sample.admin_address.
Proof.
  apply (admin_fixed_at_creation (Sample.create Sample.admin_address 5)
           Sample.same_block_calls).
  - reflexivity.
  - repeat constructor; try discriminate; intros [H|H]; discriminate H.
Defined.

(** ** The router *)

Lemma program_noop (ctx : Ctx) (st : State) (selector : bytes) :
  Txn_application_id ctx <> 0 ->
  Txn_on_completion ctx = NoOp ->
  Txn_application_args ctx !! 0%nat = Some selector ->
  IssuerRegistry.program ctx st
  = IssuerRegistry.dispatch selector IssuerRegistry.methods ctx st.
Proof.
  intros Hid Hoc Hsel. unfold IssuerRegistry.program.
  destruct (N.eqb_spec (Txn_application_id ctx) 0) as [|_]; [contradiction|].
  rewrite Hoc, (application_arg_lookup _ _ _ Hsel). reflexivity.
Qed.

Lemma Bytes_inj (s1 s2 : string) : Bytes s1 = Bytes s2 -> s1 = s2.
Proof.
  unfold Bytes. intros H.
  rewrite <- (string_of_list_ascii_of_string s1),
          <- (string_of_list_ascii_of_string s2).
  now rewrite H.
Qed.

Lemma dispatch_In (selector : bytes)
    (table : list (string * (Ctx -> State -> Outcome)))
    (name : string) (h : Ctx -> State -> Outcome) (ctx : Ctx) (st : State) :
  NoDup (fst <$> table) ->
  In (name, h) table ->
  selector = Bytes name ->
  IssuerRegistry.dispatch selector table ctx st = h ctx st.
Proof.
  intros Hnodup Hin ->. induction table as [|[n' h'] table IH]; [destruct Hin|].
  cbn [IssuerRegistry.dispatch].
  apply NoDup_cons in Hnodup as [Hfresh Hnodup].
  destruct Hin as [[= -> ->]|Hin].
  - now rewrite bool_decide_eq_true_2.
  - rewrite bool_decide_eq_false_2; [now apply IH|].
    intros Heq. apply Bytes_inj in Heq. subst n'. apply Hfresh.
    apply (list_elem_of_fmap_2' fst _ (name, h)); [|reflexivity].
    now apply list_elem_of_In.
Qed.

Lemma dispatch_unknown (selector : bytes)
    (table : list (string * (Ctx -> State -> Outcome)))
    (ctx : Ctx) (st : State) :
  (forall name, In name (fst <$> table) -> selector <> Bytes name) ->
  IssuerRegistry.dispatch selector table ctx st = Err Panic.
Proof.
  induction table as [|[n' h'] table IH]; intros Hnone; [reflexivity|].
  cbn [IssuerRegistry.dispatch].
  rewrite bool_decide_eq_false_2 by (apply Hnone; now left).
  apply IH. intros name Hin. apply Hnone. now right.
Qed.

Lemma methods_NoDup : NoDup (fst <$> IssuerRegistry.methods).
Proof.
  apply (bool_decide_unpack (NoDup (fst <$> IssuerRegistry.methods))).
  vm_compute. exact I.
Qed.

(** X2.  A plain call ([NoOp]) to the created application runs exactly the
    handler its first argument names, for each of the eight method names of
    the router. *)
Theorem program_routes (ctx : Ctx) (st : State) (name : string)
    (h : Ctx -> State -> Outcome) :
  Txn_application_id ctx <> 0 ->
  Txn_on_completion ctx = NoOp ->
  Txn_application_args ctx !! 0%nat = Some (Bytes name) ->
  In (name, h) IssuerRegistry.methods ->
  IssuerRegistry.program ctx st = h ctx st.
Proof.
  intros Hid Hoc Hsel Hin.
  rewrite (program_noop ctx st _ Hid Hoc Hsel).
  now apply (dispatch_In _ _ name h _ _ methods_NoDup).
Qed.

Lemma program_routes_witness :
  IssuerRegistry.program
    (Sample.reinstate Sample.admin_address 9 Sample.x) Sample.with_x_revoked
  = IssuerRegistry.reinstate_issuer
      (Sample.reinstate Sample.admin_address 9 Sample.x) Sample.with_x_revoked.
Proof.
  apply (program_routes (Sample.reinstate Sample.admin_address 9 Sample.x)
           Sample.with_x_revoked "reinstate_issuer").
  - discriminate.
  - reflexivity.
  - reflexivity.
  - cbn. tauto.
Defined.

(** X3.  A plain call whose first argument is none of the eight method
    names, or that has no argument at all, fails and changes nothing. *)
Theorem program_unknown_method (ctx : Ctx) (st : State) :
  Txn_application_id ctx <> 0 ->
  Txn_on_completion ctx = NoOp ->
  (forall selector,
     Txn_application_args ctx !! 0%nat = Some selector ->
     forall name, In name (fst <$> IssuerRegistry.methods) ->
                  selector <> Bytes name) ->
  fails_unchanged Panic st (IssuerRegistry.program ctx st).
Proof.
  intros Hid Hoc Hnone. apply fails_unchanged_intro.
  destruct (Txn_application_args ctx !! 0%nat) as [selector|] eqn:Hsel.
  - rewrite (program_noop ctx st _ Hid Hoc Hsel).
    apply dispatch_unknown. now apply Hnone.
  - unfold IssuerRegistry.program, application_arg.
    destruct (N.eqb_spec (Txn_application_id ctx) 0) as [|_]; [contradiction|].
    now rewrite Hoc, Hsel.
Qed.

Lemma program_unknown_method_witness :
  fails_unchanged Panic Sample.with_x
    (IssuerRegistry.program
       (Sample.call Sample.admin_address 9 ["remove_issuer"; Sample.x]%string)
       Sample.with_x)
  /\ fails_unchanged Panic Sample.with_x
       (IssuerRegistry.program (Sample.call Sample.admin_address 9 [])
          Sample.with_x).
Proof.
  split.
  - apply (program_unknown_method
             (Sample.call Sample.admin_address 9
                ["remove_issuer"; Sample.x]%string) Sample.with_x).
    + discriminate.
    + reflexivity.
    + intros selector [= <-] name Hin Heq. apply Bytes_inj in Heq. subst name.
      cbn in Hin. intuition discriminate.
  - apply (program_unknown_method (Sample.call Sample.admin_address 9 [])
             Sample.with_x).
    + discriminate.
    + reflexivity.
    + intros selector Hsel. discriminate Hsel.
Defined.

(** X4.  Deleting or updating the application is for the admin only: the
    call is approved for the admin and rejected for anyone else, and in
    both cases the state is left as it was.  Opt-in and close-out calls are
    approved for every caller, again without touching the state.  None of
    the four looks at the call arguments. *)
Theorem lifecycle_calls (ctx : Ctx) (st : State) (a : bytes) :
  Txn_application_id ctx <> 0 ->
  admin st = Ok a ->
  match Txn_on_completion ctx with
  | DeleteApplication | UpdateApplication =>
      IssuerRegistry.program ctx st
      = if bool_decide (Txn_sender ctx = a) then Ok (st, []) else Err Rejected
  | OptIn | CloseOut => IssuerRegistry.program ctx st = Ok (st, [])
  | NoOp | ClearState => True
  end.
Proof.
  intros Hid Hadmin. unfold IssuerRegistry.program.
  destruct (N.eqb_spec (Txn_application_id ctx) 0) as [|_]; [contradiction|].
  destruct (Txn_on_completion ctx); try exact I; try reflexivity;
    unfold IssuerRegistry.handle_delete, IssuerRegistry.handle_update,
      IssuerRegistry.admin_only;
    rewrite (is_admin_eq ctx st a Hadmin); reflexivity.
Qed.

Lemma lifecycle_calls_witness :
  IssuerRegistry.program
    {| Txn_sender := Sample.issuer_x; Txn_application_id := 1;
       Txn_on_completion := DeleteApplication; Txn_application_args := [];
       Global_latest_timestamp := 9 |} Sample.with_x
  = Err Rejected.
Proof.
  exact (lifecycle_calls
           {| Txn_sender := Sample.issuer_x; Txn_application_id := 1;
              Txn_on_completion := DeleteApplication;
              Txn_application_args := []; Global_latest_timestamp := 9 |}
           Sample.with_x Sample.admin_address
           ltac:(discriminate) ltac:(vm_compute; reflexivity)).
Defined.

(** ** The checks of [add_issuer], read both ways *)

Lemma validate_name_accepts (ctx : Ctx) (name : bytes) :
  Txn_application_args ctx !! 2%nat = Some name ->
  IssuerRegistry.validate_name ctx = Ok true <-> name_rule name.
Proof.
  intros Hn. rewrite (validate_name_rule ctx name Hn). split.
  - intros [= H]. now apply bool_decide_eq_true_1 in H.
  - intros H. now rewrite (bool_decide_eq_true_2 _ H).
Qed.

Lemma validate_url_accepts (ctx : Ctx) (url : bytes) :
  Txn_application_args ctx !! 4%nat = Some url ->
  IssuerRegistry.validate_url ctx = Ok true <-> url_rule url.
Proof.
  intros Hu. destruct (Nat.le_gt_cases 8 (length url)) as [Hlen|Hlen].
  - rewrite (validate_url_rule ctx url Hu Hlen). split.
    + intros [= H]. now apply bool_decide_eq_true_1 in H.
    + intros H. now rewrite (bool_decide_eq_true_2 _ H).
  - rewrite (validate_url_short ctx url Hu Hlen). split; [discriminate|].
    intros [_ Hrange]. lia.
Qed.

(** X5.  The two validators accept exactly what the rules describe:
    [validate_name] answers true if and only if the name has 3 to 64
    bytes, and [validate_url] answers true if and only if the URL starts
    with [http://] or [https://] and has 10 to 256 bytes. *)
Theorem validators_accept_exactly_the_rules (ctx : Ctx) (name url : bytes) :
  Txn_application_args ctx !! 2%nat = Some name ->
  Txn_application_args ctx !! 4%nat = Some url ->
  (IssuerRegistry.validate_name ctx = Ok true <-> name_rule name)
  /\ (IssuerRegistry.validate_url ctx = Ok true <-> url_rule url).
Proof.
  intros Hn Hu. split;
    [now apply validate_name_accepts | now apply validate_url_accepts].
Qed.

Lemma validators_accept_exactly_the_rules_witness :
  (IssuerRegistry.validate_name
     (Sample.add Sample.admin_address 5 Sample.x "Gov Office"
        "http://a.b") = Ok true
   <-> name_rule (Bytes "Gov Office"))
  /\ (IssuerRegistry.validate_url
        (Sample.add Sample.admin_address 5 Sample.x "Gov Office"
           "http://a.b") = Ok true
      <-> url_rule (Bytes "http://a.b")).
Proof.
  apply (validators_accept_exactly_the_rules
           (Sample.add Sample.admin_address 5 Sample.x "Gov Office"
              "http://a.b")).
  - reflexivity.
  - reflexivity.
Defined.

Lemma validate_name_Ok_true (ctx : Ctx) :
  IssuerRegistry.validate_name ctx = Ok true ->
  exists name,
    Txn_application_args ctx !! 2%nat = Some name /\ name_rule name.
Proof.
  intros H. destruct (Txn_application_args ctx !! 2%nat) as [name|] eqn:Hn.
  - exists name. split; [reflexivity|]. now apply (validate_name_accepts ctx).
  - unfold IssuerRegistry.validate_name, application_arg in H.
    rewrite Hn in H. discriminate H.
Qed.

Lemma validate_url_Ok_true (ctx : Ctx) :
  IssuerRegistry.validate_url ctx = Ok true ->
  exists url,
    Txn_application_args ctx !! 4%nat = Some url /\ url_rule url.
Proof.
  intros H. destruct (Txn_application_args ctx !! 4%nat) as [url|] eqn:Hu.
  - exists url. split; [reflexivity|]. now apply (validate_url_accepts ctx).
  - unfold IssuerRegistry.validate_url, application_arg in H.
    rewrite Hu in H. discriminate H.
Qed.

Lemma is_admin_Ok (ctx : Ctx) (st : State) (b : bool) :
  IssuerRegistry.is_admin ctx st = Ok b ->
  exists a, admin st = Ok a /\ b = bool_decide (Txn_sender ctx = a).
Proof.
  unfold IssuerRegistry.is_admin, admin.
  destruct (as_bytes (App_globalGet (Bytes "admin") st)) as [a|e];
    [|discriminate].
  cbn [bind]. intros [= <-]. eauto.
Qed.

Lemma is_active_issuer_Ok_true (address : bytes) (st : State) :
  IssuerRegistry.is_active_issuer address st = Ok true ->
  active_issuer address st.
Proof.
  intros H. destruct (App_box_get address st) as [v|] eqn:Hv.
  - rewrite (is_active_issuer_revoked_at _ _ _ Hv) in H.
    exists v. split; [exact Hv|].
    destruct (revoked_at v) as [n|e]; [|discriminate H].
    cbn [bind] in H. injection H as H. apply N.eqb_eq in H. now subst.
  - unfold IssuerRegistry.is_active_issuer in H. rewrite Hv in H.
    discriminate H.
Qed.

Lemma application_arg_Ok (ctx : Ctx) (i : nat) (x : bytes) :
  application_arg ctx i = Ok x -> Txn_application_args ctx !! i = Some x.
Proof.
  unfold application_arg.
  destruct (Txn_application_args ctx !! i); [now intros [= ->] | discriminate].
Qed.

(** What a successful [add_issuer] tells about the call. *)
Lemma add_issuer_Ok_checks (ctx : Ctx) (st st' : State) (log : list bytes) :
  IssuerRegistry.add_issuer ctx st = Ok (st', log) ->
  (exists name url,
     Txn_application_args ctx !! 2%nat = Some name
     /\ Txn_application_args ctx !! 4%nat = Some url
     /\ name_rule name /\ url_rule url)
  /\ (exists a,
        admin st = Ok a
        /\ (Txn_sender ctx = a \/ active_issuer (Txn_sender ctx) st))
  /\ (7 <= length (Txn_application_args ctx))%nat.
Proof.
  unfold IssuerRegistry.add_issuer. intros H.
  peel H as name_ok Hname. peel_assert H as Hname_ok. subst name_ok.
  peel H as url_ok Hurl. peel_assert H as Hurl_ok. subst url_ok.
  peel H as adm Hadm. peel H as act Hact. peel_assert H as Hauth.
  peel H as address Haddr. peel_assert H as Hfree.
  peel H as st1 Hput1. peel H as meta Hmeta.
  destruct (validate_name_Ok_true ctx Hname) as (name & Hn & Hnr).
  destruct (validate_url_Ok_true ctx Hurl) as (url & Hu & Hur).
  destruct (is_admin_Ok ctx st adm Hadm) as (a & Ha & ->).
  split; [eauto 10|]. split.
  - exists a. split; [exact Ha|].
    apply orb_true_iff in Hauth as [Hs|Hs].
    + left. now apply bool_decide_eq_true_1 in Hs.
    + right. subst act. now apply is_active_issuer_Ok_true.
  - unfold IssuerRegistry.meta_box_value in Hmeta.
    peel Hmeta as x2 H2. peel Hmeta as x3 H3. peel Hmeta as x4 H4.
    peel Hmeta as x5 H5. peel Hmeta as x6 H6.
    apply application_arg_Ok in H6. apply lookup_lt_Some in H6. lia.
Qed.

(** X6.  [add_issuer] never succeeds on the quiet: a successful call had at
    least seven arguments, a name and a URL that meet the Validation Rules,
    a caller who is the admin or an active issuer, and an address that had
    no box. *)
Theorem add_issuer_success_requires (ctx : Ctx) (st st' : State)
    (log : list bytes) :
  IssuerRegistry.add_issuer ctx st = Ok (st', log) ->
  (7 <= length (Txn_application_args ctx))%nat
  /\ (exists name url,
        Txn_application_args ctx !! 2%nat = Some name
        /\ Txn_application_args ctx !! 4%nat = Some url
        /\ name_rule name /\ url_rule url)
  /\ (exists a,
        admin st = Ok a
        /\ (Txn_sender ctx = a \/ active_issuer (Txn_sender ctx) st))
  /\ (exists address,
        Txn_application_args ctx !! 1%nat = Some address
        /\ App_box_get address st = None).
Proof.
  intros H.
  destruct (add_issuer_Ok_checks ctx st st' log H) as (Hmeta & Hauth & Hargs).
  apply add_issuer_Ok in H as (address & _ & _ & Haddr & Hfree & _).
  apply application_arg_Ok in Haddr. eauto 10.
Qed.

Lemma add_issuer_success_requires_witness :
  (7 <= length (Txn_application_args
                  (Sample.add Sample.admin_address 5 Sample.x "Gov Office"
                     "https://gov.example")))%nat
  /\ (exists name url,
        Txn_application_args
          (Sample.add Sample.admin_address 5 Sample.x "Gov Office"
             "https://gov.example") !! 2%nat = Some name
        /\ Txn_application_args
             (Sample.add Sample.admin_address 5 Sample.x "Gov Office"
                "https://gov.example") !! 4%nat = Some url
        /\ name_rule name /\ url_rule url)
  /\ (exists a,
        admin Sample.created = Ok a
        /\ (Txn_sender
              (Sample.add Sample.admin_address 5 Sample.x "Gov Office"
                 "https://gov.example") = a
            \/ active_issuer
                 (Txn_sender
                    (Sample.add Sample.admin_address 5 Sample.x "Gov Office"
                       "https://gov.example")) Sample.created))
  /\ (exists address,
        Txn_application_args
          (Sample.add Sample.admin_address 5 Sample.x "Gov Office"
             "https://gov.example") !! 1%nat = Some address
        /\ App_box_get address Sample.created = None).
Proof.
  apply (add_issuer_success_requires
           (Sample.add Sample.admin_address 5 Sample.x "Gov Office"
              "https://gov.example") Sample.created Sample.with_x []).
  vm_compute. reflexivity.
Defined.

(** X7.  With valid metadata, a caller who is neither the admin nor an
    active issuer -- no box under the caller's address, or one whose
    [revoked_at] is not 0 -- is turned away by [add_issuer] as
    [Unauthorized], and nothing is written. *)
Theorem add_issuer_unauthorized (ctx : Ctx) (st : State) (a name url : bytes) :
  Txn_application_args ctx !! 2%nat = Some name ->
  Txn_application_args ctx !! 4%nat = Some url ->
  name_rule name ->
  url_rule url ->
  admin st = Ok a ->
  Txn_sender ctx <> a ->
  (App_box_get (Txn_sender ctx) st = None
   \/ exists v r, App_box_get (Txn_sender ctx) st = Some v
                  /\ revoked_at v = Ok r /\ r <> 0) ->
  fails_unchanged Unauthorized st (IssuerRegistry.add_issuer ctx st).
Proof.
  intros Hn Hu Hname Hurl Ha Hs Hinactive. apply fails_unchanged_intro.
  unfold IssuerRegistry.add_issuer.
  rewrite (validate_name_rule ctx name Hn), (bool_decide_eq_true_2 _ Hname). run.
  rewrite (validate_url_rule ctx url Hu) by (destruct Hurl; lia).
  rewrite (bool_decide_eq_true_2 _ Hurl). run.
  rewrite (is_admin_false ctx st a Ha Hs). run.
  destruct Hinactive as [Hnone | (v & r & Hv & Hr & Hr0)].
  - unfold IssuerRegistry.is_active_issuer. now rewrite Hnone.
  - rewrite (is_active_issuer_revoked_at _ _ _ Hv), Hr. run.
    destruct (N.eqb_spec r 0); [contradiction | reflexivity].
Qed.

Lemma add_issuer_unauthorized_witness :
  fails_unchanged Unauthorized Sample.with_x_revoked
    (IssuerRegistry.add_issuer
       (Sample.add Sample.issuer_x 9 Sample.y "Gov Office"
          "https://gov.example") Sample.with_x_revoked)
  /\ fails_unchanged Unauthorized Sample.with_x
       (IssuerRegistry.add_issuer
          (Sample.add Sample.issuer_y 9 Sample.y "Gov Office"
             "https://gov.example") Sample.with_x).
Proof.
  split.
  - apply (add_issuer_unauthorized
             (Sample.add Sample.issuer_x 9 Sample.y "Gov Office"
                "https://gov.example") Sample.with_x_revoked
             Sample.admin_address (Bytes "Gov Office")
             (Bytes "https://gov.example")).
    + reflexivity.
    + reflexivity.
    + unfold name_rule. vm_compute. lia.
    + unfold url_rule. split; [right; vm_compute; reflexivity | vm_compute; lia].
    + vm_compute. reflexivity.
    + vm_compute. discriminate.
    + right. eexists _, 9. split; [vm_compute; reflexivity|].
      split; [vm_compute; reflexivity | discriminate].
  - apply (add_issuer_unauthorized
             (Sample.add Sample.issuer_y 9 Sample.y "Gov Office"
                "https://gov.example") Sample.with_x
             Sample.admin_address (Bytes "Gov Office")
             (Bytes "https://gov.example")).
    + reflexivity.
    + reflexivity.
    + unfold name_rule. vm_compute. lia.
    + unfold url_rule. split; [right; vm_compute; reflexivity | vm_compute; lia].
    + vm_compute. reflexivity.
    + vm_compute. discriminate.
    + left. vm_compute. reflexivity.
Defined.

(** ** What [revoke_issuer] and [reinstate_issuer] do to a record *)

Lemma be_value_lt (b : bytes) (acc : N) :
  be_value acc b < (acc + 1) * 256 ^ N.of_nat (length b).
Proof.
  revert acc. induction b as [|c b IH]; intros acc.
  - cbn. lia.
  - cbn [be_value length]. rewrite Nat2N.inj_succ, N.pow_succ_r'.
    specialize (IH (acc * 256 + N_of_ascii c)).
    pose proof (N_ascii_bounded c) as Hc.
    assert (Hpos : 0 < 256 ^ N.of_nat (length b)) by (apply N.neq_0_lt_0, N.pow_nonzero; lia).
    nia.
Qed.

Lemma Btoi_lt (b : bytes) (n : N) : Btoi b = Ok n -> n < uint64_max.
Proof.
  unfold Btoi. destruct (Nat.leb_spec (length b) 8) as [Hlen|]; [|discriminate].
  intros [= <-]. pose proof (be_value_lt b 0) as Hlt.
  assert (Hpow : 256 ^ N.of_nat (length b) <= 256 ^ 8)
    by (apply N.pow_le_mono_r; lia).
  unfold uint64_max. change (2 ^ 64) with (256 ^ 8). lia.
Qed.

(** X8.  Called by the admin on a well-formed (56-byte) record with a flag
    argument of at most 8 bytes, [revoke_issuer] succeeds and rewrites that
    record only: [revoked_at] becomes the call time and [revoke_all_prior]
    the number given as flag (any [uint64], not only 0 or 1), while
    [authorized_at] and [vouched_by] read as before; no other box and no
    global changes. *)
Theorem revoke_issuer_stamps_record (ctx : Ctx) (st : State)
    (address old flag_arg : bytes) :
  admin st = Ok (Txn_sender ctx) ->
  Txn_application_args ctx !! 1%nat = Some address ->
  Txn_application_args ctx !! 2%nat = Some flag_arg ->
  (length flag_arg <= 8)%nat ->
  App_box_get address st = Some old ->
  length old = 56%nat ->
  Global_latest_timestamp ctx < uint64_max ->
  exists st' v flag,
    IssuerRegistry.revoke_issuer ctx st = Ok (st', [])
    /\ App_box_get address st' = Some v
    /\ Btoi flag_arg = Ok flag
    /\ authorized_at v = authorized_at old
    /\ revoked_at v = Ok (Global_latest_timestamp ctx)
    /\ revoke_all_prior v = Ok flag
    /\ vouched_by v = vouched_by old
    /\ (forall k, k <> address -> App_box_get k st' = App_box_get k st)
    /\ globals st' = globals st.
Proof.
  intros Hadmin Haddr Hflag Hflen Hold Hlen Htime.
  destruct (Btoi_short flag_arg Hflen) as [flag Hbtoi].
  destruct (revoke_issuer_succeeds ctx st address old Hadmin Haddr Hold Hlen
              flag_arg flag Hflag Hbtoi) as (a & vb & Hxa & Hxvb & Hrun).
  destruct (Extract_length _ _ _ _ Hxa) as [Hla _].
  destruct (Extract_length _ _ _ _ Hxvb) as [Hlvb _].
  eexists _, _, flag. split; [exact Hrun|]. split; [apply box_get_store_eq|].
  split; [exact Hbtoi|].
  rewrite authorized_at_issuer_box, revoked_at_issuer_box,
    revoke_all_prior_issuer_box, vouched_by_issuer_box
    by auto using length_Itob.
  unfold authorized_at, vouched_by. rewrite Hxa, Hxvb. run.
  rewrite !Btoi_Itob by eauto using Btoi_lt.
  repeat split. intros k Hk. now apply box_get_store_ne.
Qed.

Lemma revoke_issuer_stamps_record_witness :
  exists st' v flag,
    IssuerRegistry.revoke_issuer
      (Sample.revoke Sample.admin_address 9 Sample.issuer_x 7) Sample.with_x
    = Ok (st', [])
    /\ App_box_get Sample.issuer_x st' = Some v
    /\ Btoi (Itob 7) = Ok flag
    /\ authorized_at v
       = authorized_at (IssuerRegistry.issuer_box_value (Itob 5) (Itob 0)
                          (Itob 0) Sample.admin_address)
    /\ revoked_at v = Ok 9
    /\ revoke_all_prior v = Ok flag
    /\ vouched_by v
       = vouched_by (IssuerRegistry.issuer_box_value (Itob 5) (Itob 0)
                       (Itob 0) Sample.admin_address)
    /\ (forall k, k <> Sample.issuer_x ->
                  App_box_get k st' = App_box_get k Sample.with_x)
    /\ globals st' = globals Sample.with_x.
Proof.
  apply (revoke_issuer_stamps_record
           (Sample.revoke Sample.admin_address 9 Sample.issuer_x 7)
           Sample.with_x Sample.issuer_x
           (IssuerRegistry.issuer_box_value (Itob 5) (Itob 0) (Itob 0)
              Sample.admin_address) (Itob 7)).
  - vm_compute. reflexivity.
  - reflexivity.
  - reflexivity.
  - vm_compute. lia.
  - vm_compute. reflexivity.
  - reflexivity.
  - reflexivity.
Defined.

Lemma revoke_issuer_Ok_inactive (ctx : Ctx) (st st' : State)
    (log : list bytes) (address : bytes) :
  IssuerRegistry.revoke_issuer ctx st = Ok (st', log) ->
  Txn_application_args ctx !! 1%nat = Some address ->
  0 < Global_latest_timestamp ctx < uint64_max ->
  exists v,
    App_box_get address st' = Some v
    /\ revoked_at v = Ok (Global_latest_timestamp ctx)
    /\ admin st' = admin st.
Proof.
  intros H Haddr [Hpos Hmax].
  apply revoke_issuer_Ok in H
    as (address' & old & a & flag & vb & Haddr' & Hold & Ha & Hvb & ->).
  rewrite (application_arg_lookup _ _ _ Haddr) in Haddr'.
  injection Haddr' as <-.
  destruct (Extract_length _ _ _ _ Ha) as [Hla _].
  eexists. split; [apply box_get_store_eq|]. split; [|reflexivity].
  rewrite revoked_at_issuer_box by auto using length_Itob.
  now apply Btoi_Itob.
Qed.

(** X9.  Revocation takes the right to vouch away.  After a successful
    [revoke_issuer] on an address (at a timestamp other than 0), that
    address is no longer an active issuer, and unless it is the admin's own
    address every [add_issuer] it sends fails and writes nothing. *)
Theorem revoked_issuer_cannot_vouch (ctx c' : Ctx) (st st' : State)
    (log : list bytes) (address a : bytes) :
  IssuerRegistry.revoke_issuer ctx st = Ok (st', log) ->
  Txn_application_args ctx !! 1%nat = Some address ->
  0 < Global_latest_timestamp ctx < uint64_max ->
  admin st = Ok a ->
  address <> a ->
  Txn_sender c' = address ->
  IssuerRegistry.is_active_issuer address st' = Ok false
  /\ exists e, fails_unchanged e st' (IssuerRegistry.add_issuer c' st').
Proof.
  intros H Haddr Htime Hadmin Hne Hsender.
  destruct (revoke_issuer_Ok_inactive ctx st st' log address H Haddr Htime)
    as (v & Hv & Hr & Hadmin').
  assert (Hinactive : IssuerRegistry.is_active_issuer address st' = Ok false).
  { rewrite (is_active_issuer_revoked_at _ _ _ Hv), Hr. run.
    destruct (N.eqb_spec (Global_latest_timestamp ctx) 0); [lia | reflexivity]. }
  split; [exact Hinactive|].
  destruct (IssuerRegistry.add_issuer c' st') as [[st'' log']|e] eqn:Hadd.
  - exfalso.
    destruct (add_issuer_Ok_checks c' st' st'' log' Hadd)
      as (_ & (a' & Ha' & Hauth) & _).
    rewrite Hadmin', Hadmin in Ha'. injection Ha' as <-.
    destruct Hauth as [Heq | Hact]; [congruence|].
    rewrite Hsender in Hact.
    apply active_issuer_check in Hact. congruence.
  - exists e. now apply fails_unchanged_intro.
Qed.

Lemma revoked_issuer_cannot_vouch_witness :
  IssuerRegistry.is_active_issuer Sample.issuer_x Sample.with_x_revoked
  = Ok false
  /\ exists e,
       fails_unchanged e Sample.with_x_revoked
         (IssuerRegistry.add_issuer
            (Sample.add Sample.issuer_x 9 Sample.y "Gov Office"
               "https://gov.example") Sample.with_x_revoked).
Proof.
  apply (revoked_issuer_cannot_vouch
           (Sample.revoke Sample.admin_address 9 Sample.issuer_x 1)
           (Sample.add Sample.issuer_x 9 Sample.y "Gov Office"
              "https://gov.example")
           Sample.with_x Sample.with_x_revoked [] Sample.issuer_x
           Sample.admin_address).
  - vm_compute. reflexivity.
  - reflexivity.
  - split; reflexivity.
  - vm_compute. reflexivity.
  - vm_compute. discriminate.
  - reflexivity.
Defined.

(** X10.  Reinstatement gives it back: after a successful
    [reinstate_issuer] the address is an active issuer again, so that it
    passes the caller check of [add_issuer]. *)
Theorem reinstated_issuer_is_active (ctx : Ctx) (st st' : State)
    (log : list bytes) (address : bytes) :
  IssuerRegistry.reinstate_issuer ctx st = Ok (st', log) ->
  Txn_application_args ctx !! 1%nat = Some address ->
  active_issuer address st'
  /\ IssuerRegistry.is_active_issuer address st' = Ok true.
Proof.
  intros H Haddr.
  apply reinstate_issuer_Ok in H as (address' & old & vb & Haddr' & Hold & Hvb & ->).
  rewrite (application_arg_lookup _ _ _ Haddr) in Haddr'.
  injection Haddr' as <-.
  assert (Hact : active_issuer address
                   (store_box address
                      (IssuerRegistry.issuer_box_value
                         (Itob (Global_latest_timestamp ctx)) (Itob 0)
                         (Itob 0) vb) st)).
  { eexists. split; [apply box_get_store_eq|].
    rewrite revoked_at_issuer_box by auto using length_Itob.
    apply Btoi_Itob. unfold uint64_max. lia. }
  split; [exact Hact | now apply active_issuer_check].
Qed.

Lemma reinstated_issuer_is_active_witness :
  active_issuer Sample.issuer_x
    (commit Sample.with_x_revoked
       (IssuerRegistry.reinstate_issuer
          (Sample.reinstate Sample.admin_address 9 Sample.x)
          Sample.with_x_revoked))
  /\ IssuerRegistry.is_active_issuer Sample.issuer_x
       (commit Sample.with_x_revoked
          (IssuerRegistry.reinstate_issuer
             (Sample.reinstate Sample.admin_address 9 Sample.x)
             Sample.with_x_revoked)) = Ok true.
Proof.
  apply (reinstated_issuer_is_active
           (Sample.reinstate Sample.admin_address 9 Sample.x)
           Sample.with_x_revoked _ []).
  - vm_compute. reflexivity.
  - reflexivity.
Defined.

(** ** Missing records *)

(** X11.  An admin call that names an address without a box is answered
    with [NotFound] and writes nothing: [revoke_issuer] and
    [reinstate_issuer] in both contracts, and [update_metadata] of
    [issuer-registry.py] once its metadata has passed validation. *)
Theorem missing_record_not_found (ctx : Ctx) (st : State) (address : bytes) :
  admin st = Ok (Txn_sender ctx) ->
  Txn_application_args ctx !! 1%nat = Some address ->
  App_box_get address st = None ->
  fails_unchanged NotFound st (IssuerRegistry.revoke_issuer ctx st)
  /\ fails_unchanged NotFound st (IssuerRegistry.reinstate_issuer ctx st)
  /\ fails_unchanged NotFound st
       (IssuerRegistryBeaker.revoke_issuer ctx address st)
  /\ fails_unchanged NotFound st
       (IssuerRegistryBeaker.reinstate_issuer ctx address st)
  /\ (forall name url,
        Txn_application_args ctx !! 2%nat = Some name ->
        Txn_application_args ctx !! 4%nat = Some url ->
        name_rule name -> url_rule url ->
        fails_unchanged NotFound st (IssuerRegistry.update_metadata ctx st)).
Proof.
  intros Hadmin Haddr Hnone.
  pose proof (is_admin_true ctx st _ Hadmin eq_refl) as Hadm.
  refine (conj _ (conj _ (conj _ (conj _ _)))); intros;
    apply fails_unchanged_intro.
  - unfold IssuerRegistry.revoke_issuer. rewrite Hadm. run.
    rewrite (application_arg_lookup _ _ _ Haddr). run. now rewrite Hnone.
  - unfold IssuerRegistry.reinstate_issuer. rewrite Hadm. run.
    rewrite (application_arg_lookup _ _ _ Haddr). run. now rewrite Hnone.
  - unfold IssuerRegistryBeaker.revoke_issuer. rewrite beaker_is_admin, Hadm.
    run. now rewrite Hnone.
  - unfold IssuerRegistryBeaker.reinstate_issuer. rewrite beaker_is_admin, Hadm.
    run. now rewrite Hnone.
  - unfold IssuerRegistry.update_metadata. rewrite Hadm. run.
    rewrite (validate_name_rule ctx name) by assumption.
    rewrite bool_decide_eq_true_2 by assumption. run.
    rewrite (validate_url_rule ctx url)
      by (try assumption; match goal with H : url_rule _ |- _ => destruct H; lia end).
    rewrite bool_decide_eq_true_2 by assumption. run.
    rewrite (application_arg_lookup _ _ _ Haddr). run. now rewrite Hnone.
Qed.

Lemma missing_record_not_found_witness :
  fails_unchanged NotFound Sample.with_x
    (IssuerRegistry.revoke_issuer
       (Sample.update Sample.admin_address 9 Sample.y "Gov Office"
          "https://gov.example") Sample.with_x)
  /\ fails_unchanged NotFound Sample.with_x
       (IssuerRegistry.reinstate_issuer
          (Sample.update Sample.admin_address 9 Sample.y "Gov Office"
             "https://gov.example") Sample.with_x)
  /\ fails_unchanged NotFound Sample.with_x
       (IssuerRegistry.update_metadata
          (Sample.update Sample.admin_address 9 Sample.y "Gov Office"
             "https://gov.example") Sample.with_x).
Proof.
  destruct (missing_record_not_found
              (Sample.update Sample.admin_address 9 Sample.y "Gov Office"
                 "https://gov.example") Sample.with_x Sample.issuer_y)
    as (Hrevoke & Hreinstate & _ & _ & Hupdate).
  - vm_compute. reflexivity.
  - reflexivity.
  - vm_compute. reflexivity.
  - split; [exact Hrevoke|]. split; [exact Hreinstate|].
    apply (Hupdate (Bytes "Gov Office") (Bytes "https://gov.example")).
    + reflexivity.
    + reflexivity.
    + unfold name_rule. vm_compute. lia.
    + unfold url_rule. split; [right; vm_compute; reflexivity | vm_compute; lia].
Defined.

(** ** Writing a record and reading it back *)

Lemma App_box_put_room (st : State) (k v : bytes) :
  valid_box_name k = true ->
  (forall old, App_box_get k st = Some old -> length old = length v) ->
  App_box_put k v st = Ok (store_box k v st).
Proof.
  intros Hname Hroom. destruct (App_box_get k st) as [old|] eqn:Hold.
  - apply (App_box_put_same _ _ _ old Hold). now apply Hroom.
  - now apply App_box_put_fresh.
Qed.

Lemma Log_small (v : bytes) : (length v <= 1024)%nat -> Log v = Ok [v].
Proof.
  intros H. unfold Log, max_log_size.
  destruct (Nat.leb_spec (length v) 1024); [reflexivity | lia].
Qed.

Lemma Log_eq (v : bytes) (st : State) :
  (let* logged := Log v in Ok (st, logged))
  = if (length v <=? 1024)%nat then Ok (st, [v]) else Err Panic.
Proof. unfold Log, max_log_size. now destruct (length v <=? 1024)%nat. Qed.

(** X12.  A credential revocation can be read back.  When the admin
    revokes a credential id of at most 59 bytes whose box is absent (or
    has the same size, as when the same credential is revoked again), both
    contracts store the call time in 8 bytes followed by the issuer address
    given under ["cred:" + id]; in [issuer-registry.py] any caller's
    [query_credential] for that id then logs those bytes (up to 1024 of
    them), so that a second revocation replaces the recorded time. *)
Theorem revoke_credential_then_query (c q : Ctx) (st : State)
    (credential_id issuer_address : bytes) :
  let value := Concat [Itob (Global_latest_timestamp c); issuer_address] in
  let st' := store_box (Concat [Bytes "cred:"; credential_id]) value st in
  admin st = Ok (Txn_sender c) ->
  Txn_application_args c !! 1%nat = Some credential_id ->
  Txn_application_args c !! 2%nat = Some issuer_address ->
  Txn_application_args q !! 1%nat = Some credential_id ->
  (length credential_id <= 59)%nat ->
  (length value <= 1024)%nat ->
  (forall old,
     App_box_get (Concat [Bytes "cred:"; credential_id]) st = Some old ->
     length old = length value) ->
  IssuerRegistry.revoke_credential c st = Ok (st', [])
  /\ IssuerRegistry.query_credential q st' = Ok (st', [value])
  /\ IssuerRegistryBeaker.revoke_credential c credential_id issuer_address st
     = Ok (st', [])
  /\ App_box_get (Concat [Bytes "cred:"; credential_id]) st' = Some value.
Proof.
  intros value st' Hadmin Hid Haddr Hq Hbound Hsize Hroom.
  pose proof (is_admin_true c st _ Hadmin eq_refl) as Hadm.
  assert (Hname : valid_box_name (Concat [Bytes "cred:"; credential_id]) = true)
    by (apply valid_prefixed_key; cbn; lia).
  pose proof (App_box_put_room st _ value Hname Hroom) as Hput.
  assert (Hget : App_box_get (Concat [Bytes "cred:"; credential_id]) st'
                 = Some value) by apply box_get_store_eq.
  split; [|split; [|split]].
  - unfold IssuerRegistry.revoke_credential. rewrite Hadm. run.
    rewrite (application_arg_lookup _ _ _ Hid). run.
    rewrite (application_arg_lookup _ _ _ Haddr). run.
    fold value. now rewrite Hput.
  - unfold IssuerRegistry.query_credential, IssuerRegistry.log_box.
    rewrite (application_arg_lookup _ _ _ Hq). run.
    now rewrite Hget, (Log_small value Hsize).
  - unfold IssuerRegistryBeaker.revoke_credential.
    rewrite beaker_is_admin, Hadm. run. fold value. now rewrite Hput.
  - exact Hget.
Qed.

Lemma revoke_credential_then_query_witness :
  IssuerRegistry.query_credential
    (Sample.query 9 "query_credential" "cred-123")
    (store_box (Concat [Bytes "cred:"; Bytes "cred-123"])
       (Concat [Itob 9; Sample.issuer_x])
       (store_box (Concat [Bytes "cred:"; Bytes "cred-123"])
          (Concat [Itob 7; Sample.issuer_y]) Sample.with_x))
  = Ok (store_box (Concat [Bytes "cred:"; Bytes "cred-123"])
          (Concat [Itob 9; Sample.issuer_x])
          (store_box (Concat [Bytes "cred:"; Bytes "cred-123"])
             (Concat [Itob 7; Sample.issuer_y]) Sample.with_x),
        [Concat [Itob 9; Sample.issuer_x]]).
Proof.
  apply (revoke_credential_then_query
           (Sample.call Sample.admin_address 9
              ["revoke_credential"; "cred-123"; Sample.x]%string)
           (Sample.query 9 "query_credential" "cred-123")
           (store_box (Concat [Bytes "cred:"; Bytes "cred-123"])
              (Concat [Itob 7; Sample.issuer_y]) Sample.with_x)
           (Bytes "cred-123") Sample.issuer_x).
  - vm_compute. reflexivity.
  - reflexivity.
  - reflexivity.
  - reflexivity.
  - vm_compute. lia.
  - vm_compute. lia.
  - intros old Hold. vm_compute in Hold. injection Hold as <-. reflexivity.
Defined.

(** X13.  What [add_issuer] wrote can be read back by anyone: after a
    successful [add_issuer] by a 32-byte sender, [query_issuer] for the
    address logs the issuer box (call time, two zero words, the caller),
    whoever sends the query, and [query_metadata] logs the metadata box --
    unless that box has more than 1024 bytes, in which case it is stored
    but every [query_metadata] for it fails. *)
Theorem add_issuer_then_query (ctx q : Ctx) (st st' : State)
    (log : list bytes) (address : bytes) :
  IssuerRegistry.add_issuer ctx st = Ok (st', log) ->
  Txn_application_args ctx !! 1%nat = Some address ->
  Txn_application_args q !! 1%nat = Some address ->
  length (Txn_sender ctx) = 32%nat ->
  IssuerRegistry.query_issuer q st'
  = Ok (st', [IssuerRegistry.issuer_box_value
                (Itob (Global_latest_timestamp ctx)) (Itob 0) (Itob 0)
                (Txn_sender ctx)])
  /\ exists meta,
       IssuerRegistry.meta_box_value ctx = Ok meta
       /\ App_box_get (Concat [Bytes "meta:"; address]) st' = Some meta
       /\ IssuerRegistry.query_metadata q st'
          = if (length meta <=? 1024)%nat then Ok (st', [meta])
            else Err Panic.
Proof.
  intros H Haddr Hq Hsender.
  apply add_issuer_Ok in H
    as (address' & meta & n & Haddr' & Hfree & Hmeta & Hn & Hlt & ->).
  rewrite (application_arg_lookup _ _ _ Haddr) in Haddr'.
  injection Haddr' as <-.
  assert (Hkey : Concat [Bytes "meta:"; address] <> address)
    by now apply prefixed_key_ne.
  split.
  - unfold IssuerRegistry.query_issuer, IssuerRegistry.log_box.
    rewrite (application_arg_lookup _ _ _ Hq). run.
    rewrite box_get_globalPut, box_get_store_ne, box_get_store_eq by assumption.
    rewrite Log_small; [reflexivity|].
    rewrite length_issuer_box by auto using length_Itob. lia.
  - exists meta. split; [exact Hmeta|]. split.
    + now rewrite box_get_globalPut, box_get_store_eq.
    + unfold IssuerRegistry.query_metadata, IssuerRegistry.log_box.
      rewrite (application_arg_lookup _ _ _ Hq). run.
      rewrite box_get_globalPut, box_get_store_eq. apply Log_eq.
Qed.

Lemma add_issuer_then_query_witness :
  IssuerRegistry.query_issuer (Sample.query 9 "query_issuer" Sample.x)
    Sample.with_x
  = Ok (Sample.with_x,
        [IssuerRegistry.issuer_box_value (Itob 5) (Itob 0) (Itob 0)
           Sample.admin_address])
  /\ exists meta,
       IssuerRegistry.meta_box_value
         (Sample.add Sample.admin_address 5 Sample.x "Gov Office"
            "https://gov.example") = Ok meta
       /\ App_box_get (Concat [Bytes "meta:"; Sample.issuer_x]) Sample.with_x
          = Some meta
       /\ IssuerRegistry.query_metadata
            (Sample.query 9 "query_issuer" Sample.x) Sample.with_x
          = if (length meta <=? 1024)%nat then Ok (Sample.with_x, [meta])
            else Err Panic.
Proof.
  apply (add_issuer_then_query
           (Sample.add Sample.admin_address 5 Sample.x "Gov Office"
              "https://gov.example")
           (Sample.query 9 "query_issuer" Sample.x)
           Sample.created Sample.with_x [] Sample.issuer_x).
  - vm_compute. reflexivity.
  - reflexivity.
  - reflexivity.
  - reflexivity.
Defined.

(** X14.  [update_metadata] by the admin, for an address of at most 59
    bytes that has an issuer box (revoked or not), with metadata that
    meets the rules and a metadata box that is absent or of the new size,
    succeeds: the metadata box then holds the call time followed by the
    five fields, and no other box and no global changes. *)
Theorem update_metadata_replaces (ctx : Ctx) (st : State)
    (sel address name full_name url organization_type jurisdiction
     issuer : bytes) :
  let meta := Concat [Itob (Global_latest_timestamp ctx); name; full_name;
                      url; organization_type; jurisdiction] in
  let meta_key := Concat [Bytes "meta:"; address] in
  Txn_application_args ctx
  = [sel; address; name; full_name; url; organization_type; jurisdiction] ->
  (length address <= 59)%nat ->
  admin st = Ok (Txn_sender ctx) ->
  name_rule name ->
  url_rule url ->
  App_box_get address st = Some issuer ->
  (forall old, App_box_get meta_key st = Some old -> length old = length meta) ->
  exists st',
    IssuerRegistry.update_metadata ctx st = Ok (st', [])
    /\ App_box_get meta_key st' = Some meta
    /\ (forall k, k <> meta_key -> App_box_get k st' = App_box_get k st)
    /\ globals st' = globals st.
Proof.
  intros meta meta_key Hargs Hbound Hadmin Hname Hurl Hissuer Hroom.
  assert (Hkey : valid_box_name meta_key = true)
    by (apply valid_prefixed_key; cbn; lia).
  exists (store_box meta_key meta st). split; [|split; [|split]].
  - unfold IssuerRegistry.update_metadata.
    rewrite (is_admin_true ctx st _ Hadmin eq_refl). run.
    rewrite (validate_name_rule ctx name) by now rewrite Hargs.
    rewrite (bool_decide_eq_true_2 _ Hname). run.
    rewrite (validate_url_rule ctx url)
      by (rewrite ?Hargs; try reflexivity; destruct Hurl; lia).
    rewrite (bool_decide_eq_true_2 _ Hurl). run.
    rewrite (application_arg_lookup ctx 1 address) by now rewrite Hargs.
    run. rewrite Hissuer. run.
    rewrite (meta_box_value_args _ _ _ _ _ _ _ _ Hargs). run.
    fold meta meta_key.
    now rewrite (App_box_put_room st meta_key meta Hkey Hroom).
  - apply box_get_store_eq.
  - intros k Hk. now apply box_get_store_ne.
  - reflexivity.
Qed.

Lemma update_metadata_replaces_witness :
  exists st',
    IssuerRegistry.update_metadata
      (Sample.update Sample.admin_address 9 Sample.x "Tax Office"
         "https://tax.example") Sample.with_x_revoked = Ok (st', [])
    /\ App_box_get (Concat [Bytes "meta:"; Sample.issuer_x]) st'
       = Some (Concat [Itob 9; Bytes "Tax Office";
                       Bytes "Government Records Office";
                       Bytes "https://tax.example"; Bytes "government";
                       Bytes "US"])
    /\ (forall k, k <> Concat [Bytes "meta:"; Sample.issuer_x] ->
                  App_box_get k st' = App_box_get k Sample.with_x_revoked)
    /\ globals st' = globals Sample.with_x_revoked.
Proof.
  apply (update_metadata_replaces
           (Sample.update Sample.admin_address 9 Sample.x "Tax Office"
              "https://tax.example") Sample.with_x_revoked
           (Bytes "update_metadata") Sample.issuer_x (Bytes "Tax Office")
           (Bytes "Government Records Office") (Bytes "https://tax.example")
           (Bytes "government") (Bytes "US")
           (IssuerRegistry.issuer_box_value (Itob 5) (Itob 9) (Itob 1)
              Sample.admin_address)).
  - reflexivity.
  - vm_compute. lia.
  - vm_compute. reflexivity.
  - unfold name_rule. vm_compute. lia.
  - unfold url_rule. split; [right; vm_compute; reflexivity | vm_compute; lia].
  - vm_compute. reflexivity.
  - intros old Hold. vm_compute in Hold. injection Hold as <-. reflexivity.
Defined.

(** ** Which boxes a call can touch *)

Lemma revoke_credential_Ok_key (ctx : Ctx) (st st' : State) (log : list bytes) :
  IssuerRegistry.revoke_credential ctx st = Ok (st', log) ->
  exists credential_id value,
    application_arg ctx 1 = Ok credential_id
    /\ st' = store_box (Concat [Bytes "cred:"; credential_id]) value st.
Proof.
  unfold IssuerRegistry.revoke_credential. intros H.
  peel H as adm Hadm. peel_assert H as Hadm_ok.
  peel H as credential_id Hid. peel H as address Haddr.
  peel H as st1 Hput. injection H as <- <-.
  apply App_box_put_Ok in Hput. eauto.
Qed.

Lemma update_metadata_Ok_key (ctx : Ctx) (st st' : State) (log : list bytes) :
  IssuerRegistry.update_metadata ctx st = Ok (st', log) ->
  exists address value,
    application_arg ctx 1 = Ok address
    /\ st' = store_box (Concat [Bytes "meta:"; address]) value st.
Proof.
  unfold IssuerRegistry.update_metadata. intros H.
  peel H as adm Hadm. peel_assert H as Hadm_ok.
  peel H as name_ok Hname. peel_assert H as Hname_ok.
  peel H as url_ok Hurl. peel_assert H as Hurl_ok.
  peel H as address Haddr. peel_assert H as Hexists.
  peel H as meta Hmeta. peel H as st1 Hput. injection H as <- <-.
  apply App_box_put_Ok in Hput. eauto.
Qed.

Section Frame.

Variables (c : Ctx) (st : State) (k : bytes).

(** [k] is none of the boxes the call may write: whatever the second
    argument [x] is, [k] differs from [x], ["meta:" + x] and
    ["cred:" + x]. *)
Hypothesis Hother :
  forall x, Txn_application_args c !! 1%nat = Some x -> k ∉ own_keys x.

Lemma other_key (x : bytes) :
  application_arg c 1 = Ok x ->
  x <> k /\ Concat [Bytes "meta:"; x] <> k /\ Concat [Bytes "cred:"; x] <> k.
Proof.
  intros Hx. apply application_arg_Ok in Hx. specialize (Hother x Hx).
  unfold own_keys in Hother. rewrite !not_elem_of_cons in Hother.
  intuition congruence.
Qed.

Lemma add_issuer_frame :
  App_box_get k (commit st (IssuerRegistry.add_issuer c st)) = App_box_get k st.
Proof.
  destruct (IssuerRegistry.add_issuer c st) as [[st' log]|e] eqn:H;
    [|reflexivity].
  apply add_issuer_Ok in H as (x & meta & n & Hx & _ & _ & _ & _ & ->).
  destruct (other_key x Hx) as (H1 & H2 & _). cbn [commit].
  now rewrite box_get_globalPut, !box_get_store_ne.
Qed.

Lemma revoke_issuer_frame :
  App_box_get k (commit st (IssuerRegistry.revoke_issuer c st))
  = App_box_get k st.
Proof.
  destruct (IssuerRegistry.revoke_issuer c st) as [[st' log]|e] eqn:H;
    [|reflexivity].
  apply revoke_issuer_Ok in H as (x & ? & ? & ? & ? & Hx & _ & _ & _ & ->).
  destruct (other_key x Hx) as (H1 & _). cbn [commit].
  now rewrite box_get_store_ne.
Qed.

Lemma reinstate_issuer_frame :
  App_box_get k (commit st (IssuerRegistry.reinstate_issuer c st))
  = App_box_get k st.
Proof.
  destruct (IssuerRegistry.reinstate_issuer c st) as [[st' log]|e] eqn:H;
    [|reflexivity].
  apply reinstate_issuer_Ok in H as (x & ? & ? & Hx & _ & _ & ->).
  destruct (other_key x Hx) as (H1 & _). cbn [commit].
  now rewrite box_get_store_ne.
Qed.

Lemma revoke_credential_frame :
  App_box_get k (commit st (IssuerRegistry.revoke_credential c st))
  = App_box_get k st.
Proof.
  destruct (IssuerRegistry.revoke_credential c st) as [[st' log]|e] eqn:H;
    [|reflexivity].
  apply revoke_credential_Ok_key in H as (x & ? & Hx & ->).
  destruct (other_key x Hx) as (_ & _ & H3). cbn [commit].
  now rewrite box_get_store_ne.
Qed.

Lemma update_metadata_frame :
  App_box_get k (commit st (IssuerRegistry.update_metadata c st))
  = App_box_get k st.
Proof.
  destruct (IssuerRegistry.update_metadata c st) as [[st' log]|e] eqn:H;
    [|reflexivity].
  apply update_metadata_Ok_key in H as (x & ? & Hx & ->).
  destruct (other_key x Hx) as (_ & H2 & _). cbn [commit].
  now rewrite box_get_store_ne.
Qed.

Lemma program_frame :
  App_box_get k (commit st (IssuerRegistry.program c st)) = App_box_get k st.
Proof.
  unfold IssuerRegistry.program.
  destruct (N.eqb_spec (Txn_application_id c) 0) as [_|_]; [reflexivity|].
  destruct (Txn_on_completion c);
    unfold IssuerRegistry.handle_delete, IssuerRegistry.handle_update,
      IssuerRegistry.handle_optin, IssuerRegistry.handle_closeout;
    rewrite ?admin_only_state; try reflexivity.
  all: destruct (application_arg c 0) as [selector|e]; [|reflexivity].
  all: cbn [bind IssuerRegistry.dispatch IssuerRegistry.methods].
  all: repeat case_bool_decide;
    rewrite ?query_issuer_state, ?query_credential_state, ?query_metadata_state;
    auto using add_issuer_frame, revoke_issuer_frame, reinstate_issuer_frame,
      revoke_credential_frame, update_metadata_frame.
Qed.

End Frame.

(** X15.  One call writes at most the boxes named after its second
    argument [x]: the box [x] itself, ["meta:" + x] and ["cred:" + x].
    Every other box reads the same before and after the call, whatever the
    method, the caller and the outcome; a call without a second argument
    writes no box at all. *)
Theorem call_writes_own_boxes_only (c : Ctx) (st : State) (k : bytes) :
  (forall x, Txn_application_args c !! 1%nat = Some x -> k ∉ own_keys x) ->
  App_box_get k (commit st (IssuerRegistry.program c st)) = App_box_get k st.
Proof. apply program_frame. Qed.

Lemma call_writes_own_boxes_only_witness :
  App_box_get Sample.issuer_x
    (commit Sample.with_x
       (IssuerRegistry.program
          (Sample.add Sample.issuer_x 9 Sample.y "Gov Office"
             "https://gov.example") Sample.with_x))
  = App_box_get Sample.issuer_x Sample.with_x.
Proof.
  apply (call_writes_own_boxes_only
           (Sample.add Sample.issuer_x 9 Sample.y "Gov Office"
              "https://gov.example") Sample.with_x Sample.issuer_x).
  intros x [= <-]. unfold own_keys. rewrite !not_elem_of_cons.
  repeat split; [discriminate.. | apply not_elem_of_nil].
Defined.

(** ** Boxes are never deleted *)

Lemma is_Some_store_box (k k' v : bytes) (st : State) :
  is_Some (App_box_get k st) -> is_Some (App_box_get k (store_box k' v st)).
Proof.
  intros H. destruct (decide (k' = k)) as [->|Hne].
  - rewrite box_get_store_eq. eauto.
  - now rewrite box_get_store_ne.
Qed.

Lemma effect_keeps_boxes (c : Ctx) (st st' : State) (k : bytes) :
  effect c st st' ->
  is_Some (App_box_get k st) -> is_Some (App_box_get k st').
Proof.
  intros Heff H. destruct Heff; rewrite ?box_get_globalPut;
    auto using is_Some_store_box.
Qed.

Lemma program_keeps_boxes (c : Ctx) (st : State) (k : bytes) :
  is_Some (App_box_get k st) ->
  is_Some (App_box_get k (commit st (IssuerRegistry.program c st))).
Proof.
  intros H. destruct (N.eq_dec (Txn_application_id c) 0) as [Hid|Hid].
  - now rewrite (on_create_state c st Hid).
  - apply (effect_keeps_boxes c st); [now apply program_effect | exact H].
Qed.

(** X16.  No call ever deletes a box: a box that exists keeps existing
    through every sequence of calls, by any callers, successful or not.  In
    particular neither an issuer nor a revoked credential can be removed
    from the registry. *)
Theorem boxes_are_never_deleted (calls : list Ctx) (st : State) (k : bytes) :
  is_Some (App_box_get k st) ->
  is_Some (App_box_get k (run_calls st calls)).
Proof.
  revert st. induction calls as [|c calls IH]; intros st H; [exact H|].
  cbn [run_calls foldl].
  fold (run_calls (commit st (IssuerRegistry.program c st)) calls).
  apply IH. now apply program_keeps_boxes.
Qed.

Lemma boxes_are_never_deleted_witness :
  is_Some (App_box_get Sample.issuer_x
             (run_calls Sample.with_x
                [Sample.revoke Sample.admin_address 9 Sample.issuer_x 1;
                 Sample.call Sample.admin_address 9
                   ["remove_issuer"; Sample.x]%string])).
Proof.
  apply (boxes_are_never_deleted
           [Sample.revoke Sample.admin_address 9 Sample.issuer_x 1;
            Sample.call Sample.admin_address 9
              ["remove_issuer"; Sample.x]%string]
           Sample.with_x Sample.issuer_x).
  vm_compute. eauto.
Defined.

(** ** Issuer records along a history *)

Lemma wellformed_store_other (st : State) (p : string) (x value : bytes) :
  p = "meta:"%string \/ p = "cred:"%string ->
  issuer_records_wellformed st ->
  issuer_records_wellformed (store_box (Concat [Bytes p; x]) value st).
Proof.
  intros Hp Hwf k v Hk Hv.
  rewrite box_get_store_ne in Hv by now apply plain_key_ne_prefixed.
  exact (Hwf k v Hk Hv).
Qed.

Lemma wellformed_store_issuer (st : State) (address a r f vb : bytes) :
  length a = 8%nat -> length r = 8%nat -> length f = 8%nat ->
  length vb = 32%nat ->
  issuer_records_wellformed st ->
  issuer_records_wellformed
    (store_box address (IssuerRegistry.issuer_box_value a r f vb) st).
Proof.
  intros Ha Hr Hf Hvb Hwf k v Hk Hv.
  destruct (decide (address = k)) as [<-|Hne].
  - rewrite box_get_store_eq in Hv. injection Hv as <-.
    now apply length_issuer_box.
  - rewrite box_get_store_ne in Hv by assumption. exact (Hwf k v Hk Hv).
Qed.

Lemma effect_wellformed (c : Ctx) (st st' : State) :
  effect c st st' ->
  length (Txn_sender c) = 32%nat ->
  issuer_records_wellformed st -> issuer_records_wellformed st'.
Proof.
  intros Heff Hsender Hwf.
  destruct Heff as [| address meta n _ _ _ | address old a vb flag _ Ha Hvb
                    | address old vb _ Hvb | credential_id value
                    | address value ].
  - exact Hwf.
  - intros k v Hk Hv. rewrite box_get_globalPut in Hv. revert k v Hk Hv.
    apply (wellformed_store_other _ "meta:"); [now left|].
    apply wellformed_store_issuer; auto using length_Itob.
  - apply wellformed_store_issuer; auto using length_Itob.
    + apply (Extract_length _ _ _ _ Ha).
    + apply (Extract_length _ _ _ _ Hvb).
  - apply wellformed_store_issuer; auto using length_Itob.
    apply (Extract_length _ _ _ _ Hvb).
  - apply (wellformed_store_other _ "cred:"); [now right | exact Hwf].
  - apply (wellformed_store_other _ "meta:"); [now left | exact Hwf].
Qed.

Lemma run_calls_wellformed (calls : list Ctx) (st : State) :
  Forall (fun c => Txn_application_id c <> 0) calls ->
  senders_are_addresses calls ->
  issuer_records_wellformed st ->
  issuer_records_wellformed (run_calls st calls).
Proof.
  revert st. induction calls as [|c calls IH]; intros st Hids Hsenders Hwf;
    [exact Hwf|].
  inversion Hids as [|? ? Hid Hids']; subst.
  inversion Hsenders as [|? ? Hs Hsenders']; subst.
  cbn [run_calls foldl].
  fold (run_calls (commit st (IssuerRegistry.program c st)) calls).
  apply (IH _ Hids' Hsenders').
  apply (effect_wellformed c st); auto using program_effect.
Qed.

(** X17.  In a registry created once and then called by accounts (32-byte
    senders), every issuer record has exactly the 56 bytes of its four
    fields, however the calls went: timestamps, flag and voucher can always
    be read at their offsets, and the size that [revoke_issuer] and
    [reinstate_issuer] write back is the size they found. *)
Theorem issuer_records_stay_wellformed (creation : Ctx) (calls : list Ctx) :
  Txn_application_id creation = 0 ->
  Forall (fun c => Txn_application_id c <> 0) calls ->
  senders_are_addresses calls ->
  issuer_records_wellformed (registry_after creation calls).
Proof.
  intros Hid Hids Hsenders. unfold registry_after.
  apply (run_calls_wellformed calls _ Hids Hsenders).
  intros k v _ Hv.
  pose proof (created_has_no_boxes creation k Hid) as Hnone.
  unfold registry_after in Hnone. cbn [run_calls foldl] in Hnone.
  rewrite Hnone in Hv. discriminate Hv.
Qed.

Lemma issuer_records_stay_wellformed_witness :
  issuer_records_wellformed
    (registry_after (Sample.create Sample.admin_address 5)
       Sample.same_block_calls).
Proof.
  apply (issuer_records_stay_wellformed
           (Sample.create Sample.admin_address 5) Sample.same_block_calls).
  - reflexivity.
  - repeat constructor; discriminate.
  - repeat constructor.
Defined.

Lemma have_metadata_store (st : State) (k' v : bytes) :
  (plain_key k' -> is_Some (App_box_get k' st)) ->
  issuer_records_have_metadata st ->
  issuer_records_have_metadata (store_box k' v st).
Proof.
  intros Hold Hmeta k Hk Hsome.
  apply is_Some_store_box. apply (Hmeta k Hk).
  destruct (decide (k' = k)) as [->|Hne].
  - now apply Hold.
  - now rewrite box_get_store_ne in Hsome.
Qed.

Lemma effect_have_metadata (c : Ctx) (st st' : State) :
  effect c st st' ->
  issuer_records_have_metadata st -> issuer_records_have_metadata st'.
Proof.
  intros Heff Hmeta.
  destruct Heff as [| address meta n _ _ _ | address old a vb flag Hold _ _
                    | address old vb Hold _ | credential_id value
                    | address value ].
  - exact Hmeta.
  - intros k Hk Hsome. rewrite box_get_globalPut in *.
    destruct (decide (address = k)) as [<-|Hne].
    + rewrite box_get_store_eq. eauto.
    + apply is_Some_store_box, is_Some_store_box. apply (Hmeta k Hk).
      rewrite box_get_store_ne in Hsome
        by (apply plain_key_ne_prefixed; [now left | exact Hk]).
      now rewrite box_get_store_ne in Hsome.
  - apply have_metadata_store; [|exact Hmeta]. rewrite Hold. eauto.
  - apply have_metadata_store; [|exact Hmeta]. rewrite Hold. eauto.
  - apply have_metadata_store; [|exact Hmeta].
    intros Hplain. now apply prefixed_key_not_plain in Hplain; [|right].
  - apply have_metadata_store; [|exact Hmeta].
    intros Hplain. now apply prefixed_key_not_plain in Hplain; [|left].
Qed.

(** X18.  Issuer and metadata records come in pairs: in a registry created
    once, after any sequence of calls every address that has an issuer
    record also has a metadata box under ["meta:" + address]. *)
Theorem issuer_records_keep_metadata (creation : Ctx) (calls : list Ctx) :
  Txn_application_id creation = 0 ->
  Forall (fun c => Txn_application_id c <> 0) calls ->
  issuer_records_have_metadata (registry_after creation calls).
Proof.
  intros Hid Hids. unfold registry_after.
  assert (Hinit : issuer_records_have_metadata
                    (commit empty_state
                       (IssuerRegistry.program creation empty_state))).
  { intros k _ [v Hv].
    pose proof (created_has_no_boxes creation k Hid) as Hnone.
    unfold registry_after in Hnone. cbn [run_calls foldl] in Hnone.
    rewrite Hnone in Hv. discriminate Hv. }
  revert Hinit.
  generalize (commit empty_state (IssuerRegistry.program creation empty_state)).
  induction calls as [|c calls IH]; intros st Hst; [exact Hst|].
  inversion Hids as [|? ? Hc Hids']; subst.
  cbn [run_calls foldl].
  fold (run_calls (commit st (IssuerRegistry.program c st)) calls).
  apply (IH Hids'). apply (effect_have_metadata c st); auto using program_effect.
Qed.

Lemma issuer_records_keep_metadata_witness :
  issuer_records_have_metadata
    (registry_after (Sample.create Sample.admin_address 5)
       Sample.same_block_calls).
Proof.
  apply (issuer_records_keep_metadata
           (Sample.create Sample.admin_address 5) Sample.same_block_calls).
  - reflexivity.
  - repeat constructor; discriminate.
Defined.

(** ** The record layout *)

(** X19.  The four fields of an issuer box can be read back from the bytes
    the handlers write: for three [uint64] values and a 32-byte address,
    the box built from their 8-byte encodings and the address has 56 bytes,
    and the readers at offsets 0, 8, 16 and 24 return exactly the three
    numbers and the address. *)
Theorem issuer_box_layout (ta tr tf : N) (vb : bytes) :
  ta < uint64_max -> tr < uint64_max -> tf < uint64_max ->
  length vb = 32%nat ->
  let v := IssuerRegistry.issuer_box_value (Itob ta) (Itob tr) (Itob tf) vb in
  length v = 56%nat
  /\ authorized_at v = Ok ta
  /\ revoked_at v = Ok tr
  /\ revoke_all_prior v = Ok tf
  /\ vouched_by v = Ok vb.
Proof.
  intros Ha Hr Hf Hvb v. unfold v.
  rewrite length_issuer_box, authorized_at_issuer_box, revoked_at_issuer_box,
    revoke_all_prior_issuer_box, vouched_by_issuer_box
    by auto using length_Itob.
  now rewrite !Btoi_Itob.
Qed.

Lemma issuer_box_layout_witness :
  length (IssuerRegistry.issuer_box_value (Itob 1700000000)
       (Itob 1700000600) (Itob 1) Sample.issuer_x) = 56%nat
  /\ authorized_at (IssuerRegistry.issuer_box_value (Itob 1700000000)
       (Itob 1700000600) (Itob 1) Sample.issuer_x) = Ok 1700000000
  /\ revoked_at (IssuerRegistry.issuer_box_value (Itob 1700000000)
       (Itob 1700000600) (Itob 1) Sample.issuer_x) = Ok 1700000600
  /\ revoke_all_prior (IssuerRegistry.issuer_box_value (Itob 1700000000)
       (Itob 1700000600) (Itob 1) Sample.issuer_x) = Ok 1
  /\ vouched_by (IssuerRegistry.issuer_box_value (Itob 1700000000)
       (Itob 1700000600) (Itob 1) Sample.issuer_x) = Ok Sample.issuer_x.
Proof.
  apply (issuer_box_layout 1700000000 1700000600 1 Sample.issuer_x);
    reflexivity.
Defined.

(** ** The Beaker contract *)

(** X20.  In the Beaker contract only the admin can add or reinstate: for
    any other caller -- an active issuer included -- [add_issuer] and
    [reinstate_issuer] fail with [Unauthorized] and write nothing.
    [reinstate_issuer] of [issuer-registry.py] is admin-only in the same
    way. *)
Theorem beaker_admin_only (ctx : Ctx) (st : State) (a : bytes) :
  admin st = Ok a ->
  Txn_sender ctx <> a ->
  (forall address n f u o j,
     fails_unchanged Unauthorized st
       (IssuerRegistryBeaker.add_issuer ctx address n f u o j st))
  /\ (forall address,
        fails_unchanged Unauthorized st
          (IssuerRegistryBeaker.reinstate_issuer ctx address st))
  /\ fails_unchanged Unauthorized st (IssuerRegistry.reinstate_issuer ctx st).
Proof.
  intros Ha Hs.
  pose proof (is_admin_false ctx st a Ha Hs) as Hadm.
  refine (conj _ (conj _ _)); intros; apply fails_unchanged_intro.
  - unfold IssuerRegistryBeaker.add_issuer. now rewrite beaker_is_admin, Hadm.
  - unfold IssuerRegistryBeaker.reinstate_issuer.
    now rewrite beaker_is_admin, Hadm.
  - now apply (reinstate_issuer_non_admin ctx st a).
Qed.

Lemma beaker_admin_only_witness :
  active_issuer Sample.issuer_x Sample.with_x
  /\ fails_unchanged Unauthorized Sample.with_x
       (IssuerRegistryBeaker.add_issuer
          (Sample.call Sample.issuer_x 9 []) Sample.issuer_y
          (Bytes "Gov Office") (Bytes "Government Records Office")
          (Bytes "https://gov.example") (Bytes "government") (Bytes "US")
          Sample.with_x).
Proof.
  split.
  - eexists. split; vm_compute; reflexivity.
  - apply (beaker_admin_only (Sample.call Sample.issuer_x 9 []) Sample.with_x
             Sample.admin_address).
    + vm_compute. reflexivity.
    + vm_compute. discriminate.
Defined.





(** ** The counter, from above *)

Lemma run_calls_issuer_count_bound (calls : list Ctx) (st : State) (n : N) :
  Forall (fun c => Txn_application_id c <> 0) calls ->
  issuer_count st = Ok n ->
  exists m, issuer_count (run_calls st calls) = Ok m
            /\ n <= m <= n + N.of_nat (length calls).
Proof.
  revert st n. induction calls as [|c calls IH]; intros st n Hcalls Hn.
  - exists n. split; [exact Hn | cbn; lia].
  - inversion Hcalls as [|? ? Hid Hrest]; subst.
    cbn [run_calls foldl length].
    fold (run_calls (commit st (IssuerRegistry.program c st)) calls).
    destruct (effect_issuer_count c st _ n (program_effect c st Hid) Hn)
      as [Hsame | Hnext].
    + destruct (IH _ n Hrest Hsame) as (m & Hm & Hle).
      exists m. split; [exact Hm | lia].
    + destruct (IH _ (n + 1) Hrest Hnext) as (m & Hm & Hle).
      exists m. split; [exact Hm | lia].
Qed.

(** X25.  One call adds at most one issuer: as long as the application
    stays in place (the admin sends no delete or update call), over any
    sequence of calls [issuer_count] grows by no more than the number of
    calls, and never shrinks. *)
Theorem issuer_count_at_most_one_per_call (calls : list Ctx) (st : State)
    (a : bytes) (n : N) :
  admin st = Ok a ->
  application_stays a calls ->
  issuer_count st = Ok n ->
  exists m, issuer_count (run_calls st calls) = Ok m
            /\ n <= m <= n + N.of_nat (length calls).
Proof.
  intros _ Hstays. apply run_calls_issuer_count_bound.
  exact (application_stays_ids _ _ Hstays).
Qed.

Lemma issuer_count_at_most_one_per_call_witness :
  exists m,
    issuer_count (run_calls Sample.created Sample.same_block_calls) = Ok m
    /\ 0 <= m <= 0 + N.of_nat (length Sample.same_block_calls).
Proof.
  apply (issuer_count_at_most_one_per_call Sample.same_block_calls
           Sample.created Sample.admin_address 0).
  - vm_compute. reflexivity.
  - repeat constructor; try discriminate; intros [H|H]; discriminate H.
  - vm_compute. reflexivity.
Defined.
